(** * proClubsApi: match ingestion and change detection

    A shallow embedding of [Match_Parser.py], of the polling loop of
    [main.py] and of the URL builder of [API_Service.py].  Python values are an inductive type, exceptions are an
    explicit result type, the parser object and the three files the
    program reads and writes are records that are passed along. *)

From Stdlib Require Import ZArith String Ascii List.
From stdpp Require Import base option list strings gmap pretty.

Set Warnings "-register-all".
Local Open Scope Z_scope.
Local Open Scope string_scope.

(** ** Python values and exceptions *)

(** A Python float.  The program never computes with one: [float(...)]
    makes it, and it is stored and written out.  It is identified by its
    [repr], the shortest text that reads back as the same float. *)
Record pyfloat : Type := Float { float_repr : string }.

(** The values a decoded upstream payload is made of.  Mapping keys are
    strings, as the dataclasses declare them ([club_id: str],
    [player_id: str]); a mapping keeps its insertion order. *)
Inductive PyVal : Type :=
| VNone
| VBool (b : bool)
| VInt (z : Z)
| VFloat (f : pyfloat)
| VStr (s : string)
| VList (xs : list PyVal)
| VDict (kvs : list (string * PyVal)).

Inductive PyExn : Type :=
| KeyError (key : string)
| ValueError
| SyntaxError
| TypeError
| AttributeError
| IndexError
| FileNotFoundError
| EmptyDataError.

(** A computation either returns or raises. *)
Inductive Result (A : Type) : Type :=
| Ok (a : A)
| Raise (e : PyExn).
Arguments Ok {A} a.
Arguments Raise {A} e.

#[global] Instance Result_ret : MRet Result := λ A a, Ok a.
#[global] Instance Result_bind : MBind Result := λ A B f r,
  match r with Ok a => f a | Raise e => Raise e end.
#[global] Instance Result_fmap : FMap Result := λ A B f r,
  match r with Ok a => Ok (f a) | Raise e => Raise e end.

Definition raised {A} (r : Result A) : Prop := ∃ e, r = Raise e.

(** The interpreter's builtins the parser calls.  They are kept abstract:
    every general theorem below holds for any behaviour of [repr],
    [ast.literal_eval], [int] and [float]. *)
Class PyBuiltins : Type := {
  py_repr : PyVal → string;
  literal_eval : string → Result PyVal;
  py_int : PyVal → Result Z;
  py_float : PyVal → Result pyfloat;
}.

(** [str(v)]: a string is its own text, every other value prints as its
    [repr]. *)
Definition py_str `{PyBuiltins} (v : PyVal) : string :=
  match v with
  | VStr s => s
  | _ => py_repr v
  end.

(** ** Dictionaries in insertion order *)

Fixpoint dict_lookup {V} (k : string) (d : list (string * V)) : option V :=
  match d with
  | [] => None
  | (k', v) :: d' => if decide (k = k') then Some v else dict_lookup k d'
  end.

(** [d[k] = v]: an existing key keeps its position, a new one goes last. *)
Fixpoint dict_set {V} (k : string) (v : V) (d : list (string * V)) : list (string * V) :=
  match d with
  | [] => [(k, v)]
  | (k', v') :: d' =>
      if decide (k = k') then (k, v) :: d' else (k', v') :: dict_set k v d'
  end.

(** [v.items()] *)
Definition py_items (v : PyVal) : Result (list (string * PyVal)) :=
  match v with
  | VDict kvs => Ok kvs
  | _ => Raise AttributeError
  end.

(** [v.get(k, dflt)] *)
Definition py_get (v : PyVal) (k : string) (dflt : PyVal) : Result PyVal :=
  match v with
  | VDict kvs => Ok (default dflt (dict_lookup k kvs))
  | _ => Raise AttributeError
  end.

(** ** The entity model *)

Record PlayerStats : Type := mkPlayerStats {
  player_id : string;
  player_name : PyVal;
  club_id : string;
  position : PyVal;
  archetype_id : PyVal;
  rating : pyfloat;
  goals : Z;
  assists : Z;
  shots : Z;
  passes : Z;
  pass_attempts : Z;
  tackles : Z;
  tackle_attempts : Z;
  saves : Z;
  seconds_played : Z;
  score : Z;
  wins : Z;
  losses : Z;
  redcards : Z;
  user_result : Z;
}.

Record MatchData : Type := mkMatchData {
  match_id : string;
  timestamp : string;
  time_ago : string;
  players_by_club : list (string * list PlayerStats);
}.

Record MostRecentMatch : Type := mkMostRecentMatch {
  mr_match_id : string;
  mr_timestamp : string;
  mr_time_ago : string;
  mr_players : list PlayerStats;
  is_new : bool;
}.

(** A row of [club_matches.csv] as [read_csv] hands it over: column name
    to cell. *)
Abbreviation Row := (gmap string PyVal).

(** [row[k]] *)
Definition row_get (row : Row) (k : string) : Result PyVal :=
  match row !! k with
  | Some v => Ok v
  | None => Raise (KeyError k)
  end.

(** ** Record Normalizer: [MatchPlayerParser._parse_match_row] *)

Section Normalizer.
Context `{PyBuiltins}.

(** The [try]/[except (ValueError, SyntaxError)] around
    [ast.literal_eval]: both are turned into a [ValueError], anything
    else passes through. *)
Definition decode_players (players_str : string) : Result PyVal :=
  match literal_eval players_str with
  | Ok v => Ok v
  | Raise ValueError | Raise SyntaxError => Raise ValueError
  | Raise e => Raise e
  end.

(** The [PlayerStats(...)] call: keyword arguments are evaluated in
    the order they are written, the first failing coercion raises. *)
Definition parse_player (club : string) (pid : string) (player_stats : PyVal)
  : Result PlayerStats :=
  name ← py_get player_stats "playername" (VStr "Unknown");
  pos ← py_get player_stats "pos" (VStr "Unknown");
  arch ← py_get player_stats "archetypeid" (VStr "0");
  rating ← py_get player_stats "rating" (VInt 0) ≫= py_float;
  goals ← py_get player_stats "goals" (VInt 0) ≫= py_int;
  assists ← py_get player_stats "assists" (VInt 0) ≫= py_int;
  shots ← py_get player_stats "shots" (VInt 0) ≫= py_int;
  passes ← py_get player_stats "passesmade" (VInt 0) ≫= py_int;
  pass_attempts ← py_get player_stats "passattempts" (VInt 0) ≫= py_int;
  tackles ← py_get player_stats "tacklesmade" (VInt 0) ≫= py_int;
  tackle_attempts ← py_get player_stats "tackleattempts" (VInt 0) ≫= py_int;
  saves ← py_get player_stats "saves" (VInt 0) ≫= py_int;
  seconds_played ← py_get player_stats "secondsPlayed" (VInt 0) ≫= py_int;
  score ← py_get player_stats "SCORE" (VInt 0) ≫= py_int;
  wins ← py_get player_stats "wins" (VInt 0) ≫= py_int;
  losses ← py_get player_stats "losses" (VInt 0) ≫= py_int;
  redcards ← py_get player_stats "redcards" (VInt 0) ≫= py_int;
  user_result ← py_get player_stats "userResult" (VInt 0) ≫= py_int;
  mret (mkPlayerStats pid name club pos arch rating goals assists shots
          passes pass_attempts tackles tackle_attempts saves seconds_played
          score wins losses redcards user_result).

(** The inner loop: [for player_id, player_stats in club_players.items()]. *)
Fixpoint parse_players (club : string) (items : list (string * PyVal))
  : Result (list PlayerStats) :=
  match items with
  | [] => mret []
  | (pid, player_stats) :: rest =>
      p ← parse_player club pid player_stats;
      ps ← parse_players club rest;
      mret (p :: ps)
  end.

(** The outer loop: [for club_id, club_players in players_data.items()],
    threading [players_by_club]. *)
Fixpoint parse_clubs (items : list (string * PyVal))
    (players_by_club : list (string * list PlayerStats))
  : Result (list (string * list PlayerStats)) :=
  match items with
  | [] => mret players_by_club
  | (club, club_players) :: rest =>
      entries ← py_items club_players;
      players ← parse_players club entries;
      parse_clubs rest (dict_set club players players_by_club)
  end.

Definition _parse_match_row (row : Row) : Result MatchData :=
  mid ← row_get row "matchId";
  ts ← row_get row "timestamp";
  ago ← row_get row "timeAgo";
  players ← row_get row "players";
  players_data ← decode_players (py_str players);
  clubs ← py_items players_data;
  players_by_club ← parse_clubs clubs [];
  mret (mkMatchData (py_str mid) (py_str ts) (py_str ago) players_by_club).

End Normalizer.

(** ** The parser object and the files *)

(** [MatchPlayerParser]'s mutable attributes.  The two paths given to
    [__init__] are the constants of [main.py], [club_matches.csv] and
    [most_recent_matches.csv]; they are the fields of [Files] below. *)
Record MatchPlayerParser : Type := mkParser {
  matches : list MatchData;
  most_recent_match : option MostRecentMatch;
  new_matches_detected : bool;
}.

(** [MatchPlayerParser("club_matches.csv")] *)
Definition new_parser : MatchPlayerParser := mkParser [] None false.

Definition set_matches (ms : list MatchData) (self : MatchPlayerParser) :=
  mkParser ms (most_recent_match self) (new_matches_detected self).
Definition set_new_matches_detected (b : bool) (self : MatchPlayerParser) :=
  mkParser (matches self) (most_recent_match self) b.
Definition set_most_recent_match (m : MostRecentMatch) (self : MatchPlayerParser) :=
  mkParser (matches self) (Some m) (new_matches_detected self).

(** A cell of one of the two key columns of the history frame.  [read_csv]
    types a column by its content, so an id that was written as the text
    [1001] comes back as the integer 1001, while the frame built from the
    current matches holds the strings the parser made ([match_id] is a
    [str(...)], [player_id] a key of the decoded mapping).  An integer
    and a string are never equal.  [check_for_new_matches] converts the
    column with [.astype(str)] before it compares;
    [update_most_recent_matches] compares the cells as they are. *)
Inductive Cell : Type :=
| CInt (z : Z)
| CStr (s : string).

#[global] Instance Cell_eq_dec : EqDecision Cell.
Proof. solve_decision. Defined.

(** One line of [most_recent_matches.csv], its nineteen columns in file
    order.  [K] is what a key column holds: text on disk, a [Cell] in a
    frame.  The other columns take no part in detection or in
    de-duplication and are carried as the values they were built from. *)
Record HistoryRow (K : Type) : Type := mkHistoryRow {
  h_matchId : K;
  h_timestamp : string;
  h_timeAgo : string;
  h_club_id : string;
  h_player_id : K;
  h_player_name : PyVal;
  h_position : PyVal;
  h_rating : pyfloat;
  h_goals : Z;
  h_assists : Z;
  h_shots : Z;
  h_passes : Z;
  h_pass_attempts : Z;
  h_tackles : Z;
  h_tackle_attempts : Z;
  h_saves : Z;
  h_seconds_played : Z;
  h_score : Z;
  h_redcards : Z;
}.
Arguments mkHistoryRow {K}.
Arguments h_matchId {K}.
Arguments h_timestamp {K}.
Arguments h_timeAgo {K}.
Arguments h_club_id {K}.
Arguments h_player_id {K}.
Arguments h_player_name {K}.
Arguments h_position {K}.
Arguments h_rating {K}.
Arguments h_goals {K}.
Arguments h_assists {K}.
Arguments h_shots {K}.
Arguments h_passes {K}.
Arguments h_pass_attempts {K}.
Arguments h_tackles {K}.
Arguments h_tackle_attempts {K}.
Arguments h_saves {K}.
Arguments h_seconds_played {K}.
Arguments h_score {K}.
Arguments h_redcards {K}.

(** Re-typing the two key columns of a row. *)
Definition retype {K L} (fm fp : K → L) (r : HistoryRow K) : HistoryRow L :=
  mkHistoryRow (fm (h_matchId r)) (h_timestamp r) (h_timeAgo r) (h_club_id r)
    (fp (h_player_id r)) (h_player_name r) (h_position r) (h_rating r)
    (h_goals r) (h_assists r) (h_shots r) (h_passes r) (h_pass_attempts r)
    (h_tackles r) (h_tackle_attempts r) (h_saves r) (h_seconds_played r)
    (h_score r) (h_redcards r).

(** The history file: missing, present without a header line (what
    writing a frame without columns leaves, and what the file is right
    after it is opened for writing), or a header and rows. *)
Inductive HistoryFile : Type :=
| Absent
| Blank
| Table (rows : list (HistoryRow string)).

(** The three files of the working directory. *)
Record Files : Type := mkFiles {
  club_matches_csv : option (list Row);
  most_recent_matches_csv : HistoryFile;
  newest_match_json : option PyVal;
}.

Definition set_club_matches (rows : list Row) (fs : Files) : Files :=
  mkFiles (Some rows) (most_recent_matches_csv fs) (newest_match_json fs).
Definition set_history (h : HistoryFile) (fs : Files) : Files :=
  mkFiles (club_matches_csv fs) h (newest_match_json fs).
Definition set_newest_match (d : PyVal) (fs : Files) : Files :=
  mkFiles (club_matches_csv fs) (most_recent_matches_csv fs) (Some d).

(** ** Reading and writing the history file *)

Definition digit_value (c : ascii) : option Z :=
  let n := Z.of_nat (nat_of_ascii c) in
  if decide (48 ≤ n ≤ 57)%Z then Some (n - 48) else None.

Fixpoint digits_value (acc : Z) (s : string) : option Z :=
  match s with
  | EmptyString => Some acc
  | String c s' => d ← digit_value c; digits_value (10 * acc + d) s'
  end.

(** The integer a text denotes when it is a plain decimal literal: digits
    with an optional minus sign. *)
Definition int_text (s : string) : option Z :=
  match s with
  | EmptyString => None
  | String "-" EmptyString => None
  | String "-" s' => Z.opp <$> digits_value 0 s'
  | _ => digits_value 0 s
  end.

(** How [read_csv] types a key column: integers when every cell of the
    column is an integer literal, the texts themselves otherwise (an id
    is an integer literal or free text; columns of decimals or of
    missing cells do not occur among ids). *)
Definition column_reader (column : list string) : string → Cell :=
  if forallb (λ s, bool_decide (is_Some (int_text s))) column
  then λ s, CInt (default 0 (int_text s))
  else CStr.

Definition read_csv_history (rows : list (HistoryRow string)) : list (HistoryRow Cell) :=
  retype (column_reader (h_matchId <$> rows)) (column_reader (h_player_id <$> rows))
    <$> rows.

(** The text of a cell, both [astype(str)] and what [to_csv] writes. *)
Definition cell_text (c : Cell) : string :=
  match c with
  | CInt z => pretty z
  | CStr s => s
  end.

Definition to_csv (frame : list (HistoryRow Cell)) : list (HistoryRow string) :=
  retype cell_text cell_text <$> frame.

(** ** History Store and Change Detector *)

(** [load_most_recent_matches]: a missing file is [None], not an error. *)
Definition load_most_recent_matches (fs : Files)
  : Result (option (list (HistoryRow Cell))) :=
  match most_recent_matches_csv fs with
  | Absent => Ok None
  | Blank => Raise EmptyDataError
  | Table rows => Ok (Some (read_csv_history rows))
  end.

(** [set(most_recent_df['matchId'].astype(str))] *)
Definition existing_match_ids (most_recent_df : list (HistoryRow Cell)) : gset string :=
  list_to_set (cell_text ∘ h_matchId <$> most_recent_df).

(** [set([m.match_id for m in self.matches])] *)
Definition current_match_ids (ms : list MatchData) : gset string :=
  list_to_set (match_id <$> ms).

Definition new_match_ids (ms : list MatchData) (most_recent_df : list (HistoryRow Cell))
  : gset string :=
  current_match_ids ms ∖ existing_match_ids most_recent_df.

(** [check_for_new_matches]: the returned boolean and the parser with its
    [new_matches_detected] flag. *)
Definition check_for_new_matches (self : MatchPlayerParser) (fs : Files)
  : Result (bool * MatchPlayerParser) :=
  match matches self with
  | [] => Ok (false, self)
  | _ =>
      most_recent_df ← load_most_recent_matches fs;
      match most_recent_df with
      | None => Ok (true, set_new_matches_detected true self)
      | Some df =>
          if bool_decide (new_match_ids (matches self) df ≠ ∅)
          then Ok (true, set_new_matches_detected true self)
          else Ok (false, set_new_matches_detected false self)
      end
  end.

(** The dictionaries [update_most_recent_matches] appends for one match:
    clubs in order, players in order, ids as the strings they are. *)
Definition history_rows (m : MatchData) : list (HistoryRow Cell) :=
  '(_, players) ← players_by_club m;
  player ← players;
  [mkHistoryRow (CStr (match_id m)) (timestamp m) (time_ago m) (club_id player)
     (CStr (player_id player)) (player_name player) (position player)
     (rating player) (goals player) (assists player) (shots player)
     (passes player) (pass_attempts player) (tackles player)
     (tackle_attempts player) (saves player) (seconds_played player)
     (score player) (redcards player)].

Definition current_matches_data (ms : list MatchData) : list (HistoryRow Cell) :=
  ms ≫= history_rows.

Definition history_key {K} (r : HistoryRow K) : K * K := (h_matchId r, h_player_id r).

(** [drop_duplicates(subset=['matchId', 'player_id'], keep='last')]: a
    row stays unless a later row has an equal key; the order is kept. *)
Fixpoint drop_duplicates_last (frame : list (HistoryRow Cell)) : list (HistoryRow Cell) :=
  match frame with
  | [] => []
  | r :: rest =>
      if bool_decide (history_key r ∈ history_key <$> rest)
      then drop_duplicates_last rest
      else r :: drop_duplicates_last rest
  end.

(** What [update_most_recent_matches] hands to [to_csv], [None] when it
    returns before writing. *)
Definition merged_history (self : MatchPlayerParser) (fs : Files)
  : Result (option HistoryFile) :=
  match matches self with
  | [] => Ok None
  | ms =>
      let current := current_matches_data ms in
      most_recent_df ← load_most_recent_matches fs;
      match most_recent_df with
      | Some df =>
          Ok (Some (Table (to_csv (drop_duplicates_last (df ++ current)))))
      | None =>
          match current with
          | [] => Ok (Some Blank)
          | _ => Ok (Some (Table (to_csv current)))
          end
      end
  end.

Definition update_most_recent_matches (self : MatchPlayerParser) (fs : Files)
  : Result Files :=
  target ← merged_history self fs;
  match target with
  | None => Ok fs
  | Some h => Ok (set_history h fs)
  end.

(** [to_csv(self.most_recent_filepath)] opens the history file itself
    for writing, which empties it, and then writes the header and the
    rows in order.  These are the contents the file goes through; the
    last one is the finished file. *)
Definition to_csv_states (target : HistoryFile) : list HistoryFile :=
  match target with
  | Table rows => Blank :: ((λ n, Table (take n rows)) <$> seq 0 (S (length rows)))
  | _ => [Blank]
  end.

(** The contents of the history file during one call of
    [update_most_recent_matches], in order. *)
Definition update_write_states (self : MatchPlayerParser) (fs : Files)
  : Result (list HistoryFile) :=
  target ← merged_history self fs;
  match target with
  | None => Ok []
  | Some h => Ok (to_csv_states h)
  end.

(** ** Most recent match and its export *)

Definition get_most_recent_match (self : MatchPlayerParser)
  : option MostRecentMatch * MatchPlayerParser :=
  match matches self with
  | [] => (None, self)
  | most_recent_raw :: _ =>
      let all_players := '(_, players) ← players_by_club most_recent_raw; players in
      let m := mkMostRecentMatch (match_id most_recent_raw) (timestamp most_recent_raw)
                 (time_ago most_recent_raw) all_players (new_matches_detected self) in
      (Some m, set_most_recent_match m self)
  end.

(** The dictionary written for one player. *)
Definition export_player (p : PlayerStats) : PyVal :=
  VDict [("player_id", VStr (player_id p)); ("player_name", player_name p);
         ("position", position p); ("rating", VFloat (rating p));
         ("goals", VInt (goals p)); ("assists", VInt (assists p));
         ("shots", VInt (shots p)); ("passes", VInt (passes p));
         ("pass_attempts", VInt (pass_attempts p)); ("tackles", VInt (tackles p));
         ("tackle_attempts", VInt (tackle_attempts p)); ("saves", VInt (saves p));
         ("seconds_played", VInt (seconds_played p)); ("score", VInt (score p));
         ("redcards", VInt (redcards p))].

(** [match_data] of [export_most_recent_match_to_json]. *)
Definition export_match (most_recent : MatchData) : PyVal :=
  let clubs :=
    foldl (λ acc '(club, players), dict_set club (VList (export_player <$> players)) acc)
      [] (players_by_club most_recent) in
  VDict [("match_id", VStr (match_id most_recent));
         ("timestamp", VStr (timestamp most_recent));
         ("time_ago", VStr (time_ago most_recent));
         ("clubs", VDict clubs)].

(** The file holds what [json.load] gives back for it. *)
Definition export_most_recent_match_to_json (self : MatchPlayerParser) (fs : Files)
  : Files :=
  match matches self with
  | [] => fs
  | most_recent :: _ => set_newest_match (VList [export_match most_recent]) fs
  end.

(** ** Fact Extractor: [PlayerStatsParser.parse_stats] *)

Definition is_upper (c : ascii) : bool :=
  let n := nat_of_ascii c in (65 <=? n)%nat && (n <=? 90)%nat.
Definition is_lower (c : ascii) : bool :=
  let n := nat_of_ascii c in (97 <=? n)%nat && (n <=? 122)%nat.
Definition to_upper (c : ascii) : ascii :=
  if is_lower c then ascii_of_nat (nat_of_ascii c - 32) else c.
Definition to_lower (c : ascii) : ascii :=
  if is_upper c then ascii_of_nat (nat_of_ascii c + 32) else c.

(** [s.replace(old, new)] for one-character [old] and [new]. *)
Fixpoint py_replace (old new : ascii) (s : string) : string :=
  match s with
  | EmptyString => EmptyString
  | String c s' => String (if decide (c = old) then new else c) (py_replace old new s')
  end.

(** [s.title()] on ASCII text: a letter that follows a letter is lowered,
    any other letter is raised.  [cased] tells whether the previous
    character was a letter. *)
Fixpoint title_from (cased : bool) (s : string) : string :=
  match s with
  | EmptyString => EmptyString
  | String c s' =>
      if is_lower c then String (if cased then c else to_upper c) (title_from true s')
      else if is_upper c then String (if cased then to_lower c else c) (title_from true s')
      else String c (title_from false s')
  end.

Definition py_title (s : string) : string := title_from false s.

(** [v[k]] for a string key. *)
Definition py_getitem (v : PyVal) (k : string) : Result PyVal :=
  match v with
  | VDict kvs =>
      match dict_lookup k kvs with
      | Some x => Ok x
      | None => Raise (KeyError k)
      end
  | _ => Raise TypeError
  end.

(** [v[0]] *)
Definition py_first (v : PyVal) : Result PyVal :=
  match v with
  | VList (x :: _) => Ok x
  | VList [] => Raise IndexError
  | VStr (String c _) => Ok (VStr (String c EmptyString))
  | VStr EmptyString => Raise IndexError
  | VDict _ => Raise (KeyError "0")
  | _ => Raise TypeError
  end.

(** [for x in v] *)
Definition py_iter (v : PyVal) : Result (list PyVal) :=
  match v with
  | VList xs => Ok xs
  | VDict kvs => Ok (VStr ∘ fst <$> kvs)
  | VStr s => Ok ((λ c, VStr (String c EmptyString)) <$> list_ascii_of_string s)
  | _ => Raise TypeError
  end.

(** The club whose players are reported. *)
Definition tracked_club : string := "3439844".

Definition stats_to_check : list string :=
  ["goals"; "assists"; "passes"; "tackles"; "redcards"].

Section Extractor.
Context `{PyBuiltins}.

Definition stat_label (stat : string) : string := py_title (py_replace "_" " " stat).

(** The f-string of the inner loop. *)
Definition payload_for (player : PyVal) (stat : string) : Result string :=
  name ← py_getitem player "player_name";
  value ← py_getitem player stat;
  mret (py_str name +:+ " " +:+ stat_label stat +:+ " " +:+ py_str value).

(** [for stat in stats: ... payloads.append(payload)] for one player. *)
Fixpoint player_payloads (player : PyVal) (stats : list string) : Result (list string) :=
  match stats with
  | [] => mret []
  | stat :: rest =>
      payload ← payload_for player stat;
      more ← player_payloads player rest;
      mret (payload :: more)
  end.

(** The two nested loops over players and stats. *)
Fixpoint payloads_for (stats : list string) (players : list PyVal) : Result (list string) :=
  match players with
  | [] => mret []
  | player :: rest =>
      mine ← player_payloads player stats;
      more ← payloads_for stats rest;
      mret (mine ++ more)%list
  end.

Definition parse_stats (fs : Files) : Result (list string) :=
  data ← match newest_match_json fs with
         | Some d => Ok d
         | None => Raise FileNotFoundError
         end;
  newest ← py_first data;
  clubs ← py_getitem newest "clubs";
  club ← py_getitem clubs tracked_club;
  players ← py_iter club;
  payloads_for stats_to_check players.

End Extractor.

(** ** Dispatch Pipeline: [MatchPlayerParser.parse_csv] and the loop of [main] *)

Section Pipeline.
Context `{PyBuiltins}.

(** The body of [for idx, row in df.iterrows()]: a parsed match is
    appended to [self.matches], a failing row is reported with its
    index and left out. *)
Fixpoint parse_rows (idx : nat) (rows : list Row)
    (ms : list MatchData) (log : list (nat * PyExn))
  : list MatchData * list (nat * PyExn) :=
  match rows with
  | [] => (ms, log)
  | row :: rest =>
      match _parse_match_row row with
      | Ok m => parse_rows (S idx) rest (ms ++ [m]) log
      | Raise e => parse_rows (S idx) rest ms (log ++ [(idx, e)])
      end
  end.

(** [parse_csv]: the parser after the call (its [matches] is what the
    call returns) and the rows reported as failing. *)
Definition parse_csv (self : MatchPlayerParser) (fs : Files)
  : Result (MatchPlayerParser * list (nat * PyExn)) :=
  match club_matches_csv fs with
  | None => Raise FileNotFoundError
  | Some rows =>
      let '(ms, log) := parse_rows 0 rows (matches self) [] in
      Ok (set_matches ms self, log)
  end.

(** A cell of the fetched frame as it reads back from the file
    [export_dataframe] writes: a nested value is stored as its text, a
    missing value reads as NaN.  Only [str] is ever taken of a cell, so
    the column types [read_csv] picks for the other cells are left as
    they are. *)
Definition csv_cell (v : PyVal) : PyVal :=
  match v with
  | VDict _ | VList _ => VStr (py_repr v)
  | VNone => VFloat (Float "nan")
  | _ => v
  end.

Definition export_dataframe (matches_df : list Row) (fs : Files) : Files :=
  set_club_matches ((λ row : Row, csv_cell <$> row) <$> matches_df) fs.

(** What the loop carries from one turn to the next, and the payloads
    handed to the sink so far. *)
Record Loop : Type := mkLoop {
  match_parser : MatchPlayerParser;
  files : Files;
  sent : list string;
}.

(** One turn of [while True] in [main], for the frame the API client
    returned ([None] when the request failed). *)
Definition cycle (matches_df : option (list Row)) (st : Loop) : Result Loop :=
  let fs :=
    match matches_df with
    | Some (row :: rows) => export_dataframe (row :: rows) (files st)
    | _ => files st
    end in
  '(parser, _) ← parse_csv (match_parser st) fs;
  '(found, parser) ← check_for_new_matches parser fs;
  if found : bool then
    fs ← update_most_recent_matches parser fs;
    let fs := export_most_recent_match_to_json parser fs in
    payloads ← parse_stats fs;
    Ok (mkLoop parser fs (sent st ++ payloads))
  else Ok (mkLoop parser fs (sent st)).

(** The loop over the successive answers of the API. *)
Fixpoint run (answers : list (option (list Row))) (st : Loop) : Result Loop :=
  match answers with
  | [] => Ok st
  | a :: rest => st' ← cycle a st; run rest st'
  end.

End Pipeline.

(** ** The builtins on the values the worked inputs use

    [repr], [ast.literal_eval], [int] and [float] as CPython computes
    them on a fragment: decimal integers, positional decimals of at most
    fifteen digits, text without quotes, backslashes or control
    characters, and lists and mappings of these.  A text outside the
    fragment is refused; which of [ValueError] and [SyntaxError] a
    malformed literal raises is not reproduced, the normalizer treats
    the two alike.  The general theorems hold for any builtins and do
    not use this section; the worked inputs do, and all of them lie in
    the fragment. *)

Module CPython.

Fixpoint join (sep : string) (parts : list string) : string :=
  match parts with
  | [] => ""
  | [p] => p
  | p :: rest => p +:+ sep +:+ join sep rest
  end.

Definition repr_str (s : string) : string := "'" +:+ s +:+ "'".

Fixpoint repr (v : PyVal) : string :=
  match v with
  | VNone => "None"
  | VBool true => "True"
  | VBool false => "False"
  | VInt z => pretty z
  | VFloat f => float_repr f
  | VStr s => repr_str s
  | VList xs => "[" +:+ join ", " (map repr xs) +:+ "]"
  | VDict kvs =>
      "{" +:+ join ", " (map (λ kv, repr_str (fst kv) +:+ ": " +:+ repr (snd kv)) kvs) +:+ "}"
  end.

(** *** Reading a literal: tokens *)

Inductive token : Type :=
| TOpenBrace | TCloseBrace | TOpenBracket | TCloseBracket | TColon | TComma
| TString (s : string)
| TWord (s : string).

Definition is_space (c : ascii) : bool :=
  bool_decide (c = " "%char) || bool_decide (c = "010"%char) || bool_decide (c = "009"%char).

Definition punctuation (c : ascii) : option token :=
  if decide (c = "{"%char) then Some TOpenBrace
  else if decide (c = "}"%char) then Some TCloseBrace
  else if decide (c = "["%char) then Some TOpenBracket
  else if decide (c = "]"%char) then Some TCloseBracket
  else if decide (c = ":"%char) then Some TColon
  else if decide (c = ","%char) then Some TComma
  else None.

Definition is_quote (c : ascii) : bool :=
  bool_decide (c = "'"%char) || bool_decide (c = "034"%char).

(** Where the scanner is: between tokens, inside a quoted text opened
    by [q], or inside a bare word; [acc] holds the characters read so
    far, last first. *)
Inductive scanning : Type :=
| Between
| InText (q : ascii) (acc : list ascii)
| InWord (acc : list ascii).

Definition text_of (acc : list ascii) : string := string_of_list_ascii (rev acc).

Fixpoint scan (st : scanning) (s : string) : option (list token) :=
  match s with
  | EmptyString =>
      match st with
      | Between => Some []
      | InText _ _ => None
      | InWord acc => Some [TWord (text_of acc)]
      end
  | String c s' =>
      match st with
      | InText q acc =>
          if decide (c = q) then cons (TString (text_of acc)) <$> scan Between s'
          else if decide (c = "\"%char) then None
          else scan (InText q (c :: acc)) s'
      | Between =>
          if is_space c then scan Between s'
          else if is_quote c then scan (InText c []) s'
          else match punctuation c with
               | Some t => cons t <$> scan Between s'
               | None => scan (InWord [c]) s'
               end
      | InWord acc =>
          if is_space c then cons (TWord (text_of acc)) <$> scan Between s'
          else if is_quote c then None
          else match punctuation c with
               | Some t => (λ ts, TWord (text_of acc) :: t :: ts) <$> scan Between s'
               | None => scan (InWord (c :: acc)) s'
               end
      end
  end.

Definition word_value (w : string) : option PyVal :=
  if decide (w = "None") then Some VNone
  else if decide (w = "True") then Some (VBool true)
  else if decide (w = "False") then Some (VBool false)
  else VInt <$> int_text w.

(** *** Reading a literal: values.  [fuel] bounds the nesting and the
    number of elements; the number of tokens is always enough. *)
Fixpoint value (fuel : nat) (ts : list token) : option (PyVal * list token) :=
  match fuel with
  | O => None
  | S fuel =>
      match ts with
      | TString s :: ts => Some (VStr s, ts)
      | TWord w :: ts => v ← word_value w; Some (v, ts)
      | TOpenBracket :: TCloseBracket :: ts => Some (VList [], ts)
      | TOpenBracket :: ts =>
          '(xs, ts) ← elements fuel ts; Some (VList xs, ts)
      | TOpenBrace :: TCloseBrace :: ts => Some (VDict [], ts)
      | TOpenBrace :: ts =>
          '(kvs, ts) ← entries fuel ts []; Some (VDict kvs, ts)
      | _ => None
      end
  end
with elements (fuel : nat) (ts : list token) : option (list PyVal * list token) :=
  match fuel with
  | O => None
  | S fuel =>
      '(x, ts) ← value fuel ts;
      match ts with
      | TCloseBracket :: ts => Some ([x], ts)
      | TComma :: TCloseBracket :: ts => Some ([x], ts)
      | TComma :: ts => '(xs, ts) ← elements fuel ts; Some (x :: xs, ts)
      | _ => None
      end
  end
with entries (fuel : nat) (ts : list token) (d : list (string * PyVal))
  : option (list (string * PyVal) * list token) :=
  match fuel with
  | O => None
  | S fuel =>
      match ts with
      | TString k :: TColon :: ts =>
          '(x, ts) ← value fuel ts;
          let d := dict_set k x d in
          match ts with
          | TCloseBrace :: ts => Some (d, ts)
          | TComma :: TCloseBrace :: ts => Some (d, ts)
          | TComma :: ts => entries fuel ts d
          | _ => None
          end
      | _ => None
      end
  end.

Definition literal (s : string) : Result PyVal :=
  match scan Between s with
  | None => Raise SyntaxError
  | Some ts =>
      match value (S (length ts)) ts with
      | Some (v, []) => Ok v
      | _ => Raise ValueError
      end
  end.

(** *** [int] and [float] *)

Fixpoint before_point (s : string) : string :=
  match s with
  | EmptyString => EmptyString
  | String c s' => if decide (c = "."%char) then EmptyString else String c (before_point s')
  end.

Fixpoint after_point (s : string) : option string :=
  match s with
  | EmptyString => None
  | String c s' => if decide (c = "."%char) then Some s' else after_point s'
  end.

Definition int (v : PyVal) : Result Z :=
  match v with
  | VInt z => Ok z
  | VBool b => Ok (if b then 1 else 0)
  | VFloat f =>
      match int_text (before_point (float_repr f)) with
      | Some z => Ok z
      | None => Raise ValueError
      end
  | VStr s =>
      match int_text s with
      | Some z => Ok z
      | None => Raise ValueError
      end
  | _ => Raise TypeError
  end.

(** Dropping the zeros at the end of the fractional digits. *)
Fixpoint strip_zeros (digits : string) : string :=
  match digits with
  | EmptyString => EmptyString
  | String c rest =>
      let rest := strip_zeros rest in
      if decide (c = "0"%char ∧ rest = "") then "" else String c rest
  end.

Fixpoint leading_zeros (digits : string) : nat :=
  match digits with
  | String c rest => if decide (c = "0"%char) then S (leading_zeros rest) else O
  | EmptyString => O
  end.

(** The [repr] of a decimal that needs no exponent and is short enough
    to be its own shortest text. *)
Definition positional (whole : Z) (fraction : string) : option pyfloat :=
  let fraction := strip_zeros fraction in
  let digits := (String.length (pretty (Z.abs whole)) + String.length fraction)%nat in
  if decide ((digits ≤ 15)%nat ∧ (whole ≠ 0 ∨ (leading_zeros fraction ≤ 3)%nat))
  then Some (Float (pretty whole +:+ "." +:+ (if decide (fraction = "") then "0" else fraction)))
  else None.

Definition float_of_text (s : string) : option pyfloat :=
  whole ← int_text (before_point s);
  _ ← guard (whole ≠ 0 ∨ String.get 0 s ≠ Some "-"%char);
  match after_point s with
  | None => positional whole ""
  | Some fraction => _ ← digits_value 0 fraction; positional whole fraction
  end.

Definition float (v : PyVal) : Result pyfloat :=
  match v with
  | VInt z =>
      match positional z "" with
      | Some f => Ok f
      | None => Raise ValueError
      end
  | VBool b => Ok (Float (if b then "1.0" else "0.0"))
  | VFloat f => Ok f
  | VStr s =>
      match float_of_text s with
      | Some f => Ok f
      | None => Raise ValueError
      end
  | _ => Raise TypeError
  end.

End CPython.

#[global] Instance cpython : PyBuiltins := {|
  py_repr := CPython.repr;
  literal_eval := CPython.literal;
  py_int := CPython.int;
  py_float := CPython.float;
|}.

(** ** What a batch of rows parses to *)

Section Batches.
Context `{PyBuiltins}.

(** The rows that normalize, in file order. *)
Fixpoint parsed (rows : list Row) : list MatchData :=
  match rows with
  | [] => []
  | row :: rest =>
      match _parse_match_row row with
      | Ok m => m :: parsed rest
      | Raise _ => parsed rest
      end
  end.

(** The rows that do not, each with its index (counted from [idx]) and
    its exception. *)
Fixpoint rejected (idx : nat) (rows : list Row) : list (nat * PyExn) :=
  match rows with
  | [] => []
  | row :: rest =>
      match _parse_match_row row with
      | Ok _ => rejected (S idx) rest
      | Raise e => (idx, e) :: rejected (S idx) rest
      end
  end.

(** [parse_csv] called once per element of [contents], each time on the
    file as it then is. *)
Fixpoint parse_csv_repeatedly (self : MatchPlayerParser) (contents : list Files)
  : Result MatchPlayerParser :=
  match contents with
  | [] => Ok self
  | fs :: later =>
      '(self, _) ← parse_csv self fs;
      parse_csv_repeatedly self later
  end.

(** The upstream names of the fields [int(...)] is applied to. *)
Definition int_fields : list string :=
  ["goals"; "assists"; "shots"; "passesmade"; "passattempts"; "tacklesmade";
   "tackleattempts"; "saves"; "secondsPlayed"; "SCORE"; "wins"; "losses";
   "redcards"; "userResult"].

(** A field of a player's statistics is present and its coercion
    raises. *)
Definition not_numeric (player_stats : list (string * PyVal)) : Prop :=
  (∃ field x, field ∈ int_fields ∧ dict_lookup field player_stats = Some x
              ∧ raised (py_int x))
  ∨ (∃ x, dict_lookup "rating" player_stats = Some x ∧ raised (py_float x)).

End Batches.

(** ** The detector's output as the design document words it

    Follows the spec's words, for comparison with
    [check_for_new_matches]: the fetched matches whose id is not in the
    known set, in fetch order. *)
Definition new_matches_in_order (ms : list MatchData) (known : gset string)
  : list MatchData :=
  filter (λ m, match_id m ∉ known) ms.

(** The five payloads of one exported player, in the order of
    [stats_to_check]. *)
Definition player_facts `{PyBuiltins} (p : PlayerStats) : list string :=
  (λ fact : string * Z,
     py_str (player_name p) +:+ " " +:+ fact.1 +:+ " " +:+ py_str (VInt fact.2))
  <$> [("Goals", goals p); ("Assists", assists p); ("Passes", passes p);
       ("Tackles", tackles p); ("Redcards", redcards p)].

(** ** Worked inputs

    Two league matches of club 3439844 against club 555, as the API
    delivers them and as they normalize. *)

Definition stats_of (name goals assists : string) : PyVal :=
  VDict [("playername", VStr name); ("pos", VStr "forward"); ("rating", VStr "7.50");
         ("goals", VStr goals); ("assists", VStr assists)].

Definition players_of (own : PyVal) : PyVal :=
  VDict [("3439844", VDict [("7", own)]);
         ("555", VDict [("9", VDict [("playername", VStr "Bob")])])].

Definition api_row (id ts : string) (players : PyVal) : Row :=
  list_to_map [("matchId", VStr id); ("timestamp", VStr ts);
               ("timeAgo", VDict [("number", VInt 3); ("unit", VStr "hours")]);
               ("players", players)].

Definition row_1001 : Row :=
  api_row "1001" "2025-01-01 20:00:00" (players_of (stats_of "Alice" "2" "1")).
Definition row_1002 : Row :=
  api_row "1002" "2025-01-02 20:00:00" (players_of (stats_of "Alice" "3" "0")).

Definition alice (goals assists : Z) : PlayerStats :=
  mkPlayerStats "7" (VStr "Alice") "3439844" (VStr "forward") (VStr "0") (Float "7.5")
    goals assists 0 0 0 0 0 0 0 0 0 0 0 0.

Definition bob : PlayerStats :=
  mkPlayerStats "9" (VStr "Bob") "555" (VStr "Unknown") (VStr "0") (Float "0.0")
    0 0 0 0 0 0 0 0 0 0 0 0 0 0.

Definition played (id ts : string) (own : PlayerStats) : MatchData :=
  mkMatchData id ts "{'number': 3, 'unit': 'hours'}"
    [("3439844", [own]); ("555", [bob])].

Definition match_1001 : MatchData := played "1001" "2025-01-01 20:00:00" (alice 2 1).
Definition match_1002 : MatchData := played "1002" "2025-01-02 20:00:00" (alice 3 0).

(** The same match after upstream revised Alice's goals. *)
Definition match_1001_revised : MatchData :=
  played "1001" "2025-01-01 20:00:00" (alice 5 1).

Definition match_A : MatchData := played "A" "2025-01-01 20:00:00" (alice 0 0).
Definition match_B : MatchData := played "B" "2025-01-02 20:00:00" (alice 0 0).
Definition match_C : MatchData := played "C" "2025-01-03 20:00:00" (alice 0 0).

(** A parser holding a batch, and a working directory whose history
    file lists the players of the given matches. *)
Definition holding (ms : list MatchData) : MatchPlayerParser := set_matches ms new_parser.

Definition no_files : Files := mkFiles None Absent None.

Definition remembering (ms : list MatchData) : Files :=
  mkFiles None (Table (to_csv (current_matches_data ms))) None.

Definition fresh_loop : Loop := mkLoop new_parser no_files [].

(** A fetched row as it reads back from [club_matches.csv]. *)
Definition as_read (row : Row) : Row := csv_cell <$> row.

(** Four rows: one that normalizes, one whose players text is cut off,
    one without a players cell, one with a goal count that is no number. *)
Definition mixed_rows : list Row :=
  [as_read row_1001;
   <["players" := VStr "{'3439844': {'7': {'goals': "]> (as_read row_1002);
   delete "players" (as_read row_1002);
   <["players" := VStr "{'3439844': {'7': {'goals': 'two'}}}"]> (as_read row_1002)].

Definition alice_payloads : list string :=
  ["Alice Goals 2"; "Alice Assists 1"; "Alice Passes 0"; "Alice Tackles 0";
   "Alice Redcards 0"].

(** The player of the design document's example, with only the keys it
    names. *)
Definition bare_alice_export : PyVal :=
  VList [VDict [("clubs",
    VDict [(tracked_club,
      VList [VDict [("player_name", VStr "Alice"); ("goals", VInt 2);
                    ("assists", VInt 1)]])])]].

(** A frame row whose two key cells are text. *)
Definition text_keyed (r : HistoryRow Cell) : Prop :=
  ∃ a b, history_key r = (CStr a, CStr b).


(** ** Further parts of the code

    The shape of a normalized match, the two [get_players_for_club],
    the first step of a turn of [main] and [FC26_API._build_url]. *)

(** Every player listed under a club carries that club's id. *)
Definition clubs_consistent (d : list (string * list PlayerStats)) : Prop :=
  Forall (λ entry, Forall (λ p, club_id p = entry.1) entry.2) d.

(** A match as the normalizer builds it: distinct club keys, and under
    each key players of that club. *)
Definition normalized (m : MatchData) : Prop :=
  NoDup (players_by_club m).*1 ∧ clubs_consistent (players_by_club m).

Section WellFormed.
Context `{PyBuiltins}.

(** The coercions of one player's statistics all return: [float] on the
    rating and [int] on each of the fourteen counts, each taken as 0 when
    the field is absent. *)
Definition coerces (stats : list (string * PyVal)) : Prop :=
  (∃ f, py_float (default (VInt 0) (dict_lookup "rating" stats)) = Ok f)
  ∧ ∀ field, field ∈ int_fields →
             ∃ z, py_int (default (VInt 0) (dict_lookup field stats)) = Ok z.

(** A decoded players value the two loops get through: a mapping of
    clubs to mappings of players to mappings whose numbers coerce. *)
Definition well_formed_players (data : PyVal) : Prop :=
  ∃ clubs,
    data = VDict clubs
    ∧ Forall (λ club, ∃ players,
                club.2 = VDict players
                ∧ Forall (λ player, ∃ stats, player.2 = VDict stats ∧ coerces stats)
                    players)
        clubs.
End WellFormed.

(** [MatchData.get_players_for_club]: [self.players_by_club.get(club_id, [])] *)
Definition MatchData_get_players_for_club (self : MatchData) (club : string)
  : list PlayerStats :=
  default [] (dict_lookup club (players_by_club self)).

(** [MostRecentMatch.get_players_for_club]:
    [[p for p in self.players if p.club_id == club_id]] *)
Definition MostRecentMatch_get_players_for_club (self : MostRecentMatch) (club : string)
  : list PlayerStats :=
  filter (λ p, club_id p = club) (mr_players self).



Section Fetched.
Context `{PyBuiltins}.

(** The files after the first step of a turn of [main]: the fetched
    frame is exported when there is one and it is not empty. *)
Definition fetched_files (matches_df : option (list Row)) (fs : Files) : Files :=
  match matches_df with
  | Some (row :: rows) => export_dataframe (row :: rows) fs
  | _ => fs
  end.
End Fetched.

(** ** API client: [FC26_API._build_url] *)

Definition BASE_URL : string := "https://proclubs.ea.com/api/fc".

(** [s.startswith(p)] *)
Definition py_startswith (p s : string) : bool := String.prefix p s.

(** [s.lstrip(c)] for a single character [c]. *)
Fixpoint py_lstrip (c : ascii) (s : string) : string :=
  match s with
  | EmptyString => EmptyString
  | String a rest => if Ascii.eqb a c then py_lstrip c rest else s
  end.

Definition _build_url (endpoint : string) : string :=
  if py_startswith "http" endpoint then endpoint
  else BASE_URL +:+ "/" +:+ py_lstrip "/" endpoint.

(** The clubs of [players_of], as the decoded players cell lists them. *)
Definition clubs_of (own : PyVal) : list (string * PyVal) :=
  [("3439844", VDict [("7", own)]);
   ("555", VDict [("9", VDict [("playername", VStr "Bob")])])].

(** A match of a friendly whose match id and player id are no numbers. *)
Definition carol (goals : Z) : PlayerStats :=
  mkPlayerStats "guest-3" (VStr "Carol") "3439844" (VStr "midfielder") (VStr "0")
    (Float "6.5") goals 0 0 0 0 0 0 0 0 0 0 0 0 0.

Definition friendly (goals : Z) : MatchData :=
  mkMatchData "friendly-1" "2025-01-04 20:00:00" "{'number': 1, 'unit': 'hours'}"
    [("3439844", [carol goals])].

(** The loop before its first turn, in a directory whose history file
    lists the given matches. *)
Definition loop_remembering (ms : list MatchData) : Loop :=
  mkLoop new_parser (remembering ms) [].

(** * Properties *)

(** ** Record Normalizer and [parse_csv] *)

Section NormalizerFacts.
Context `{PyBuiltins}.

Lemma raised_bind {A B} (f : A → Result B) (r : Result A) :
  raised r → raised (r ≫= f).
Proof. intros [e ->]. by exists e. Qed.

Lemma raised_Raise {A} (e : PyExn) : raised (@Raise A e).
Proof. by exists e. Qed.

Lemma parse_rows_spec (rows : list Row) :
  ∀ idx ms log,
    parse_rows idx rows ms log = ((ms ++ parsed rows)%list, (log ++ rejected idx rows)%list).
Proof.
  induction rows as [|row rows IH]; intros idx ms log; simpl.
  - by rewrite !app_nil_r.
  - destruct (_parse_match_row row) as [m|e]; rewrite IH;
      by rewrite <- app_assoc.
Qed.

Lemma parse_csv_spec (self : MatchPlayerParser) (fs : Files) (rows : list Row) :
  club_matches_csv fs = Some rows →
  parse_csv self fs
  = Ok (set_matches (matches self ++ parsed rows) self, rejected 0 rows).
Proof.
  intros Hfile. unfold parse_csv. rewrite Hfile, parse_rows_spec. reflexivity.
Qed.

Lemma raised_after {A B} (f : A → Result B) (r : Result A) :
  (∀ a, raised (f a)) → raised (r ≫= f).
Proof. intros Hf. destruct r as [a|e]; [apply Hf | apply raised_Raise]. Qed.

Lemma parse_player_not_numeric club pid stats :
  not_numeric stats → raised (parse_player club pid (VDict stats)).
Proof.
  unfold parse_player, py_get.
  intros [(field & x & Hin & Hx & [e He]) | (x & Hx & [e He])].
  - unfold int_fields in Hin.
    repeat (apply elem_of_cons in Hin as [-> | Hin]);
      [ .. | by apply elem_of_nil in Hin ];
      simpl; rewrite Hx; simpl; rewrite He; simpl;
      repeat (apply raised_after; intros ?); apply raised_Raise.
  - simpl. rewrite Hx. simpl. rewrite He. apply raised_Raise.
Qed.

Lemma parse_players_raises club pid stats items :
  (pid, VDict stats) ∈ items → not_numeric stats →
  raised (parse_players club items).
Proof.
  intros Hin Hbad. induction items as [|[pid' st'] items IH]; simpl.
  - by apply elem_of_nil in Hin.
  - apply elem_of_cons in Hin as [Heq | Hin].
    + injection Heq as <- <-.
      apply raised_bind. by apply parse_player_not_numeric.
    + apply raised_after. intros p. apply raised_bind. by apply IH.
Qed.

Lemma parse_clubs_raises club players pid stats clubs :
  (club, VDict players) ∈ clubs → (pid, VDict stats) ∈ players →
  not_numeric stats →
  ∀ acc, raised (parse_clubs clubs acc).
Proof.
  intros Hclub Hplayer Hbad.
  induction clubs as [|[club' v] clubs IH]; intros acc; simpl.
  - by apply elem_of_nil in Hclub.
  - apply elem_of_cons in Hclub as [Heq | Hin].
    + injection Heq as <- <-. simpl.
      apply raised_bind. by eapply parse_players_raises.
    + apply raised_after. intros entries.
      apply raised_after. intros ps. by apply IH.
Qed.

(** A row without a [players] cell does not normalize. *)
Lemma missing_players_raises (row : Row) :
  row !! "players" = None → raised (_parse_match_row row).
Proof.
  intros Hnone. unfold _parse_match_row.
  do 3 (apply raised_after; intros ?).
  apply raised_bind. unfold row_get. rewrite Hnone. apply raised_Raise.
Qed.

Lemma decode_players_raises (s : string) :
  raised (literal_eval s) → raised (decode_players s).
Proof.
  intros [e He]. unfold decode_players. rewrite He.
  destruct e; apply raised_Raise.
Qed.

(** A row whose [players] text is not a literal does not normalize. *)
Lemma malformed_players_raises (row : Row) (v : PyVal) :
  row !! "players" = Some v → raised (literal_eval (py_str v)) →
  raised (_parse_match_row row).
Proof.
  intros Hv Hbad. unfold _parse_match_row.
  do 3 (apply raised_after; intros ?).
  unfold row_get at 1. rewrite Hv. simpl.
  apply raised_bind. by apply decode_players_raises.
Qed.

(** A row with a field that is present and not numeric does not
    normalize. *)
Lemma not_numeric_raises (row : Row) (v : PyVal) clubs club players pid stats :
  row !! "players" = Some v →
  literal_eval (py_str v) = Ok (VDict clubs) →
  (club, VDict players) ∈ clubs → (pid, VDict stats) ∈ players →
  not_numeric stats →
  raised (_parse_match_row row).
Proof.
  intros Hv Hdec Hclub Hplayer Hbad. unfold _parse_match_row.
  do 3 (apply raised_after; intros ?).
  unfold row_get at 1. rewrite Hv. simpl.
  unfold decode_players. rewrite Hdec. simpl.
  apply raised_bind. by eapply parse_clubs_raises.
Qed.

Lemma elem_of_parsed (rows : list Row) (m : MatchData) :
  m ∈ parsed rows ↔ ∃ row, row ∈ rows ∧ _parse_match_row row = Ok m.
Proof.
  induction rows as [|row rows IH]; simpl.
  - split; [intros Hm; by apply elem_of_nil in Hm|].
    intros (r & Hr & _). by apply elem_of_nil in Hr.
  - destruct (_parse_match_row row) as [m'|e] eqn:Hrow.
    + rewrite elem_of_cons, IH. split.
      * intros [-> | (r & Hr & Hp)].
        -- exists row. split; [by left | done].
        -- exists r. split; [by right | done].
      * intros (r & Hr & Hp). apply elem_of_cons in Hr as [-> | Hr].
        -- left. congruence.
        -- right. by exists r.
    + rewrite IH. split.
      * intros (r & Hr & Hp). exists r. split; [by right | done].
      * intros (r & Hr & Hp). apply elem_of_cons in Hr as [-> | Hr].
        -- congruence.
        -- by exists r.
Qed.

Lemma elem_of_rejected (rows : list Row) :
  ∀ idx i e, (i, e) ∈ rejected idx rows
    ↔ ∃ row, rows !! (i - idx)%nat = Some row ∧ (idx ≤ i)%nat ∧ _parse_match_row row = Raise e.
Proof.
  induction rows as [|row rows IH]; intros idx i e; simpl.
  - split; [intros Hm; by apply elem_of_nil in Hm|].
    intros (r & Hr & _). done.
  - destruct (_parse_match_row row) as [m'|e'] eqn:Hrow.
    + rewrite IH. split.
      * intros (r & Hr & Hle & Hp). exists r. split; [|split; [lia|done]].
        replace (i - idx)%nat with (S (i - S idx)) by lia. done.
      * intros (r & Hr & Hle & Hp).
        destruct (decide (i = idx)) as [->|Hne].
        -- rewrite Nat.sub_diag in Hr. simpl in Hr. congruence.
        -- exists r. split; [|split; [lia|done]].
           replace (i - idx)%nat with (S (i - S idx)) in Hr by lia. done.
    + rewrite elem_of_cons, IH. split.
      * intros [Heq | (r & Hr & Hle & Hp)].
        -- injection Heq as -> ->. exists row. rewrite Nat.sub_diag. done.
        -- exists r. split; [|split; [lia|done]].
           replace (i - idx)%nat with (S (i - S idx)) by lia. done.
      * intros (r & Hr & Hle & Hp).
        destruct (decide (i = idx)) as [->|Hne].
        -- rewrite Nat.sub_diag in Hr. simpl in Hr. left. congruence.
        -- right. exists r. split; [|split; [lia|done]].
           replace (i - idx)%nat with (S (i - S idx)) in Hr by lia. done.
Qed.

Lemma parse_csv_repeatedly_extends (later : list Files) :
  Forall (λ fs, is_Some (club_matches_csv fs)) later →
  ∀ self, ∃ final more,
    parse_csv_repeatedly self later = Ok final
    ∧ matches final = (matches self ++ more)%list
    ∧ new_matches_detected final = new_matches_detected self.
Proof.
  induction 1 as [|fs later [rows Hrows] _ IH]; intros self; simpl.
  - exists self, []. by rewrite app_nil_r.
  - rewrite (parse_csv_spec self fs rows Hrows). simpl.
    destruct (IH (set_matches (matches self ++ parsed rows) self))
      as (final & more & Hrun & Hms & Hflag).
    exists final, (parsed rows ++ more)%list.
    split; [done|]. split; [|done]. rewrite Hms. simpl. by rewrite app_assoc.
Qed.

(** C2.  Every call of [parse_csv] appends the matches parsed from the
    file, in file order, to the matches the parser already holds and
    clears nothing: calling it again on the same file leaves the
    parsed matches twice in the list.  Whatever is parsed later, the
    first element of the list stays what it was, and it is the match
    [get_most_recent_match] and [export_most_recent_match_to_json]
    take as the most recent one. *)
Theorem parse_csv_accumulates (self : MatchPlayerParser) (fs : Files)
    (rows : list Row) (later : list Files) :
  club_matches_csv fs = Some rows →
  Forall (λ fs', is_Some (club_matches_csv fs')) later →
  let once := set_matches (matches self ++ parsed rows) self in
  parse_csv self fs = Ok (once, rejected 0 rows)
  ∧ parse_csv once fs
    = Ok (set_matches (matches self ++ parsed rows ++ parsed rows) self,
          rejected 0 rows)
  ∧ ∃ final,
      parse_csv_repeatedly once later = Ok final
      ∧ matches once `prefix_of` matches final
      ∧ ∀ first,
          matches once !! 0%nat = Some first →
          matches final !! 0%nat = Some first
          ∧ (get_most_recent_match final).1
            = Some (mkMostRecentMatch (match_id first) (timestamp first)
                      (time_ago first)
                      ('(_, players) ← players_by_club first; players)
                      (new_matches_detected self))
          ∧ ∀ fs', export_most_recent_match_to_json final fs'
                   = set_newest_match (VList [export_match first]) fs'.
Proof.
  intros Hrows Hlater once.
  split; [by apply parse_csv_spec|].
  split.
  { rewrite (parse_csv_spec once fs rows Hrows). subst once. simpl.
    by rewrite <- app_assoc. }
  destruct (parse_csv_repeatedly_extends later Hlater once)
    as (final & more & Hrun & Hms & Hflag).
  exists final. split; [done|]. split; [by exists more|].
  intros first Hfirst.
  assert (Hhead : ∃ rest, matches final = first :: rest).
  { rewrite Hms. destruct (matches once) as [|m ms]; [done|].
    injection Hfirst as ->. by eexists. }
  destruct Hhead as [rest Hfinal].
  split; [by rewrite Hfinal|].
  unfold get_most_recent_match, export_most_recent_match_to_json.
  rewrite Hfinal, Hflag. done.
Qed.

(** C9.  [parse_csv] leaves out the rows that fail to normalize and
    goes on with the rest: the matches appended are exactly the rows
    that normalize, in file order, and every failing row is reported
    with its index.  A row fails when it has no players cell, when
    its players text is not a literal, and when a field of a player
    is present and cannot be coerced to a number. *)
Theorem failing_rows_are_skipped (self : MatchPlayerParser) (fs : Files)
    (rows : list Row) :
  club_matches_csv fs = Some rows →
  parse_csv self fs
  = Ok (set_matches (matches self ++ parsed rows) self, rejected 0 rows)
  ∧ (∀ m, m ∈ parsed rows ↔ ∃ row, row ∈ rows ∧ _parse_match_row row = Ok m)
  ∧ (∀ i e, (i, e) ∈ rejected 0 rows
            ↔ ∃ row, rows !! i = Some row ∧ _parse_match_row row = Raise e)
  ∧ (∀ row, row !! "players" = None → raised (_parse_match_row row))
  ∧ (∀ row v, row !! "players" = Some v → raised (literal_eval (py_str v)) →
              raised (_parse_match_row row))
  ∧ (∀ row v clubs club players pid stats,
       row !! "players" = Some v →
       literal_eval (py_str v) = Ok (VDict clubs) →
       (club, VDict players) ∈ clubs → (pid, VDict stats) ∈ players →
       not_numeric stats →
       raised (_parse_match_row row)).
Proof.
  intros Hrows.
  split; [by apply parse_csv_spec|].
  split; [apply elem_of_parsed|].
  split.
  { intros i e. rewrite elem_of_rejected. rewrite Nat.sub_0_r.
    split; [intros (r & ? & _ & ?) | intros (r & ? & ?)]; exists r; auto with lia. }
  split; [apply missing_players_raises|].
  split; [apply malformed_players_raises|].
  apply not_numeric_raises.
Qed.

(** C10.  A row whose players cell is a structured object and a row
    whose players cell is the literal text of that object normalize to
    the same result; so does any text that decodes as the object's own
    text does. *)
Theorem literal_and_object_normalize_alike (row : Row) (d : PyVal) :
  _parse_match_row (<["players" := VStr (py_str d)]> row)
  = _parse_match_row (<["players" := d]> row)
  ∧ ∀ s, literal_eval s = literal_eval (py_str d) →
         _parse_match_row (<["players" := VStr s]> row)
         = _parse_match_row (<["players" := d]> row).
Proof.
  assert (Hgen : ∀ s, literal_eval s = literal_eval (py_str d) →
            _parse_match_row (<["players" := VStr s]> row)
            = _parse_match_row (<["players" := d]> row)).
  { intros s Hs. unfold _parse_match_row, row_get.
    rewrite !lookup_insert_eq.
    rewrite !(lookup_insert_ne _ "players") by done.
    simpl. unfold decode_players. rewrite Hs. reflexivity. }
  split; [by apply Hgen | exact Hgen].
Qed.
End NormalizerFacts.

(** ** Change Detector *)

Section DetectorFacts.

Lemma elem_of_current_match_ids (ms : list MatchData) (id : string) :
  id ∈ current_match_ids ms ↔ ∃ m, m ∈ ms ∧ match_id m = id.
Proof.
  unfold current_match_ids. rewrite elem_of_list_to_set, list_elem_of_fmap.
  split; intros (m & ? & ?); exists m; auto.
Qed.

Lemma elem_of_new_match_ids (ms : list MatchData) df (id : string) :
  id ∈ new_match_ids ms df
  ↔ (∃ m, m ∈ ms ∧ match_id m = id) ∧ id ∉ existing_match_ids df.
Proof.
  unfold new_match_ids. by rewrite elem_of_difference, elem_of_current_match_ids.
Qed.

Lemma new_match_ids_nonempty (ms : list MatchData) df :
  new_match_ids ms df ≠ ∅ ↔ ∃ m, m ∈ ms ∧ match_id m ∉ existing_match_ids df.
Proof.
  split.
  - intros Hne. apply set_choose_L in Hne as [id Hid].
    apply elem_of_new_match_ids in Hid as [(m & Hm & <-) Hnot]. by exists m.
  - intros (m & Hm & Hnot) Hempty.
    assert (match_id m ∈ new_match_ids ms df) as Hin.
    { apply elem_of_new_match_ids. split; [by exists m | done]. }
    rewrite Hempty in Hin. by apply not_elem_of_empty in Hin.
Qed.

Lemma new_matches_in_order_nonempty (ms : list MatchData) (known : gset string) :
  new_matches_in_order ms known ≠ [] ↔ ∃ m, m ∈ ms ∧ match_id m ∉ known.
Proof.
  unfold new_matches_in_order. split.
  - intros Hne. destruct (filter _ ms) as [|m rest] eqn:Hf; [done|].
    assert (m ∈ filter (λ m, match_id m ∉ known) ms) as Hin
      by (rewrite Hf; by left).
    apply list_elem_of_filter in Hin as [? ?]. by exists m.
  - intros (m & Hm & Hnot) Hnil.
    assert (m ∈ filter (λ m, match_id m ∉ known) ms) as Hin
      by (by apply list_elem_of_filter).
    rewrite Hnil in Hin. by apply elem_of_nil in Hin.
Qed.

(** C3, amended.  With a readable history file the detector computes
    the set of fetched ids that are not among the known ids, by
    identity of the id alone, and returns one boolean: whether that
    set is non-empty, which is whether the fetched matches that are
    new, taken in fetch order, are non-empty.  The set itself is not
    part of what it returns. *)
Theorem detector_returns_any_new (self : MatchPlayerParser) (fs : Files)
    (rows : list (HistoryRow string)) :
  most_recent_matches_csv fs = Table rows →
  let df := read_csv_history rows in
  let known := existing_match_ids df in
  (∀ id, id ∈ new_match_ids (matches self) df
         ↔ (∃ m, m ∈ matches self ∧ match_id m = id) ∧ id ∉ known)
  ∧ (∀ other, match_id <$> other = match_id <$> matches self →
              new_match_ids other df = new_match_ids (matches self) df)
  ∧ ∃ found : bool,
      check_for_new_matches self fs
      = Ok (found, match matches self with
                   | [] => self
                   | _ => set_new_matches_detected found self
                   end)
      ∧ (found = true ↔ ∃ m, m ∈ matches self ∧ match_id m ∉ known)
      ∧ (found = true ↔ new_matches_in_order (matches self) known ≠ []).
Proof.
  intros Hfile df known.
  split; [apply elem_of_new_match_ids|].
  split.
  { intros other Hids. unfold new_match_ids, current_match_ids. by rewrite Hids. }
  pose proof (new_matches_in_order_nonempty (matches self) known) as Hord.
  cut (∃ found : bool,
         check_for_new_matches self fs
         = Ok (found, match matches self with
                      | [] => self
                      | _ => set_new_matches_detected found self
                      end)
         ∧ (found = true ↔ ∃ m, m ∈ matches self ∧ match_id m ∉ known)).
  { intros (found & Hrun & Hfound). exists found.
    split; [done|]. split; [done|]. by rewrite Hord. }
  unfold check_for_new_matches, load_most_recent_matches. rewrite Hfile.
  clear Hord. destruct (matches self) as [|m ms] eqn:Hms.
  - exists false. split; [done|].
    split; [done|]. intros (m & Hm & _). by apply elem_of_nil in Hm.
  - simpl. fold df. case_bool_decide as Hnew.
    + exists true. split; [done|].
      apply new_match_ids_nonempty in Hnew. by split.
    + exists false. split; [done|].
      split; [done|]. intros Hex.
      by apply new_match_ids_nonempty in Hex.
Qed.

(** C4, amended.  A missing history file is not an error: loading it
    gives [None], and for a batch that is not empty the detector
    returns true and sets its flag; with nothing known, every fetched
    match is new. *)
Theorem absent_history_all_new (self : MatchPlayerParser) (fs : Files) :
  most_recent_matches_csv fs = Absent →
  matches self ≠ [] →
  load_most_recent_matches fs = Ok None
  ∧ check_for_new_matches self fs = Ok (true, set_new_matches_detected true self)
  ∧ new_matches_in_order (matches self) ∅ = matches self.
Proof.
  intros Hfile Hms.
  unfold check_for_new_matches, load_most_recent_matches. rewrite Hfile.
  split; [done|]. split.
  - by destruct (matches self).
  - unfold new_matches_in_order. induction (matches self) as [|m ms IH]; [done|].
    rewrite filter_cons_True by apply not_elem_of_empty.
    f_equal. destruct ms; [done|]. by apply IH.
Qed.
End DetectorFacts.

(** ** History Store *)

Section StoreFacts.

Lemma keys_drop_duplicates_last (frame : list (HistoryRow Cell)) (k : Cell * Cell) :
  k ∈ history_key <$> drop_duplicates_last frame ↔ k ∈ history_key <$> frame.
Proof.
  induction frame as [|r frame IH]; simpl; [done|].
  case_bool_decide as Hlater.
  - rewrite IH, ?fmap_cons, elem_of_cons. split; [by right|].
    intros [-> | ?]; done.
  - by rewrite ?fmap_cons, !elem_of_cons, IH.
Qed.

(** In the frame, no two rows that are kept have equal key cells. *)
Lemma NoDup_drop_duplicates_last (frame : list (HistoryRow Cell)) :
  NoDup (history_key <$> drop_duplicates_last frame).
Proof.
  induction frame as [|r frame IH]; simpl; [constructor|].
  case_bool_decide as Hlater; [done|].
  rewrite ?fmap_cons. constructor; [|done].
  by rewrite keys_drop_duplicates_last.
Qed.

(** The row kept for a key is the last one with that key. *)
Lemma drop_duplicates_last_app_new (old new : list (HistoryRow Cell)) (r : HistoryRow Cell) :
  r ∈ drop_duplicates_last (old ++ new) →
  history_key r ∈ history_key <$> new →
  r ∈ drop_duplicates_last new.
Proof.
  induction old as [|o old IH]; simpl; [done|].
  case_bool_decide as Hlater; [done|].
  intros Hin Hkey. apply elem_of_cons in Hin as [-> | Hin]; [|by apply IH].
  destruct Hlater. rewrite fmap_app, elem_of_app. by right.
Qed.

Lemma elem_of_drop_duplicates_last (frame : list (HistoryRow Cell)) (r : HistoryRow Cell) :
  r ∈ drop_duplicates_last frame → r ∈ frame.
Proof.
  induction frame as [|r' frame IH]; simpl; [done|].
  case_bool_decide; rewrite ?elem_of_cons; intuition.
Qed.

Lemma current_matches_data_text_keyed (ms : list MatchData) :
  Forall text_keyed (current_matches_data ms).
Proof.
  apply Forall_forall. intros r Hr. unfold current_matches_data in Hr.
  apply list_elem_of_bind in Hr as (m & Hr & _). unfold history_rows in Hr.
  apply list_elem_of_bind in Hr as ([club players] & Hr & _).
  apply list_elem_of_bind in Hr as (p & Hr & _).
  apply list_elem_of_singleton in Hr as ->. by do 2 eexists.
Qed.

Lemma history_key_to_csv (frame : list (HistoryRow Cell)) :
  history_key <$> to_csv frame
  = (λ k : Cell * Cell, (cell_text k.1, cell_text k.2)) <$> (history_key <$> frame).
Proof. unfold to_csv. rewrite <- !list_fmap_compose. by apply list_fmap_ext. Qed.

(** When no id of the history file reads as an integer, the merged file
    has no two rows with the same match and player. *)
Lemma merge_of_text_ids_has_no_duplicates (old : list (HistoryRow Cell)) (ms : list MatchData) :
  Forall text_keyed old →
  NoDup (history_key <$> to_csv (drop_duplicates_last (old ++ current_matches_data ms))).
Proof.
  intros Hold. rewrite history_key_to_csv.
  apply NoDup_fmap_2_strong; [|apply NoDup_drop_duplicates_last].
  assert (Hall : ∀ k, k ∈ history_key <$> drop_duplicates_last (old ++ current_matches_data ms) →
                      ∃ a b, k = (CStr a, CStr b)).
  { intros k (r & -> & Hr)%list_elem_of_fmap.
    apply elem_of_drop_duplicates_last, elem_of_app in Hr as [Hr | Hr].
    - by apply (proj1 (Forall_forall _ _) Hold).
    - by apply (proj1 (Forall_forall _ _) (current_matches_data_text_keyed ms)). }
  intros k k' (a & b & ->)%Hall (a' & b' & ->)%Hall. simpl. congruence.
Qed.



Lemma last_to_csv_states (target : HistoryFile) :
  target ≠ Absent → last (to_csv_states target) = Some target.
Proof.
  destruct target as [| |rows]; [done|done|]. intros _.
  unfold to_csv_states. rewrite seq_S, fmap_app, app_comm_cons.
  change ((λ n, Table (take n rows)) <$> [(0 + length rows)%nat])
    with [Table (take (length rows) rows)].
  by rewrite last_snoc, firstn_all.
Qed.

Lemma elem_of_to_csv_states (target h : HistoryFile) :
  h ∈ to_csv_states target →
  h = Blank ∨ ∃ rows n, target = Table rows ∧ h = Table (take n rows).
Proof.
  destruct target as [| |rows]; unfold to_csv_states.
  - intros ->%list_elem_of_singleton. by left.
  - intros ->%list_elem_of_singleton. by left.
  - rewrite elem_of_cons. intros [-> | Hin]; [by left|]. right.
    apply list_elem_of_fmap in Hin as (n & -> & _). by exists rows, n.
Qed.

Lemma merged_history_returns (self : MatchPlayerParser) (fs : Files) :
  matches self ≠ [] → most_recent_matches_csv fs ≠ Blank →
  ∃ target, merged_history self fs = Ok (Some target) ∧ target ≠ Absent.
Proof.
  intros Hms Hfile. unfold merged_history, load_most_recent_matches.
  destruct (matches self) as [|m ms]; [done|].
  destruct (most_recent_matches_csv fs) as [| |rows]; [|done|]; cbn [mbind Result_bind].
  - destruct (current_matches_data (m :: ms));
      (eexists; split; [reflexivity | discriminate]).
  - eexists; split; [reflexivity | discriminate].
Qed.

(** C5, amended.  The merge writes its result into the history file
    itself: the file is emptied when it is opened and then filled row
    by row, so every content it goes through is the empty file or a
    prefix of the new rows, and a merge that runs to its end leaves
    exactly the complete new state. *)
Theorem merge_overwrites_in_place (self : MatchPlayerParser) (fs : Files) :
  matches self ≠ [] → most_recent_matches_csv fs ≠ Blank →
  ∃ target states,
    update_most_recent_matches self fs = Ok (set_history target fs)
    ∧ update_write_states self fs = Ok states
    ∧ states !! 0%nat = Some Blank
    ∧ last states = Some target
    ∧ ∀ h, h ∈ states →
           h = Blank ∨ ∃ rows n, target = Table rows ∧ h = Table (take n rows).
Proof.
  intros Hms Hfile.
  destruct (merged_history_returns self fs Hms Hfile) as (target & Hmerge & Hpresent).
  exists target, (to_csv_states target).
  unfold update_most_recent_matches, update_write_states. rewrite Hmerge. simpl.
  split; [done|]. split; [done|].
  split; [by destruct target|].
  split; [by apply last_to_csv_states|].
  apply elem_of_to_csv_states.
Qed.
End StoreFacts.

(** ** Fact Extractor *)

Section ExtractorFacts.
Context `{PyBuiltins}.

Lemma player_payloads_export (p : PlayerStats) :
  player_payloads (export_player p) stats_to_check = Ok (player_facts p).
Proof. reflexivity. Qed.

Lemma payloads_for_export (ps : list PlayerStats) :
  payloads_for stats_to_check (export_player <$> ps) = Ok (ps ≫= player_facts).
Proof.
  induction ps as [|p ps IH]; [done|].
  rewrite fmap_cons. cbn [payloads_for].
  rewrite player_payloads_export, IH. reflexivity.
Qed.

(** The two loops, for any list of stat names: every player contributes
    its payloads for all the stats before the next player does. *)
Lemma payloads_for_nested (stats : list string) (players : list PyVal) :
  payloads_for stats players
  = mjoin <$> mapM (λ player, mapM (payload_for player) stats) players.
Proof.
  assert (Hinner : ∀ player, player_payloads player stats = mapM (payload_for player) stats).
  { intros player. induction stats as [|stat stats IH]; [done|].
    cbn [player_payloads mapM]. rewrite IH. reflexivity. }
  induction players as [|player players IH]; [done|].
  cbn [payloads_for mapM]. rewrite IH, Hinner.
  destruct (mapM (payload_for player) stats) as [mine|e]; [|done]. simpl.
  by destruct (mapM _ players).
Qed.

(** C8, amended.  The stats reported are the five of [stats_to_check],
    fixed in the code.  For the exported players of the tracked club
    the extractor returns one payload per player and stat, in
    player-then-stat order, each the player's name, the stat's label
    and the value separated by single spaces. *)
Theorem fact_extractor_fixed_stats (fs : Files) (newest : list (string * PyVal))
    (older : list PyVal) (clubs : list (string * PyVal)) (ps : list PlayerStats) :
  newest_match_json fs = Some (VList (VDict newest :: older)) →
  dict_lookup "clubs" newest = Some (VDict clubs) →
  dict_lookup tracked_club clubs = Some (VList (export_player <$> ps)) →
  parse_stats fs = Ok (ps ≫= player_facts)
  ∧ length (ps ≫= player_facts) = (length ps * length stats_to_check)%nat
  ∧ ∀ i j p stat,
      ps !! i = Some p → stats_to_check !! j = Some stat →
      ∃ value,
        py_getitem (export_player p) stat = Ok value
        ∧ (ps ≫= player_facts) !! (i * length stats_to_check + j)%nat
          = Some (py_str (player_name p) +:+ " " +:+ stat_label stat +:+ " "
                  +:+ py_str value).
Proof.
  intros Hfile Hclubs Hclub.
  split.
  { unfold parse_stats. rewrite Hfile. simpl. rewrite Hclubs. simpl.
    rewrite Hclub. simpl. apply payloads_for_export. }
  split.
  { clear. induction ps as [|q ps IH]; [done|].
    rewrite bind_cons, length_app, IH. simpl. lia. }
  clear. induction ps as [|q ps IH]; intros i j p stat Hp Hstat; [done|].
  rewrite bind_cons. destruct i as [|i]; simpl in Hp.
  - injection Hp as ->.
    assert (j < 5)%nat as Hj by (apply lookup_lt_Some in Hstat; simpl in Hstat; lia).
    rewrite lookup_app_l by (simpl; lia).
    do 5 (destruct j as [|j]; [injection Hstat as <-; eexists; split; reflexivity|]).
    lia.
  - destruct (IH i j p stat Hp Hstat) as (value & Hvalue & Hlook).
    exists value. split; [done|].
    rewrite lookup_app_r by (simpl; lia).
    replace (S i * length stats_to_check + j - length (player_facts q))%nat
      with (i * length stats_to_check + j)%nat by (simpl; lia).
    done.
Qed.
End ExtractorFacts.

(** ** Dispatch Pipeline *)

Section PipelineFacts.
Context `{PyBuiltins}.

(** A turn of the loop that hands payloads to the sink takes them from
    the export of the first match of the parser's list, whichever
    matches are new. *)
Lemma cycle_reports_first_of_list (matches_df : option (list Row)) (st st' : Loop) :
  cycle matches_df st = Ok st' →
  sent st' = sent st
  ∨ ∃ first rest payloads,
      matches (match_parser st') = first :: rest
      ∧ newest_match_json (files st') = Some (VList [export_match first])
      ∧ parse_stats (files st') = Ok payloads
      ∧ sent st' = (sent st ++ payloads)%list.
Proof.
  unfold cycle. set (fs := match matches_df with Some (_ :: _) => _ | _ => _ end).
  destruct (parse_csv (match_parser st) fs) as [[parser log]|e]; [|done]. simpl.
  destruct (check_for_new_matches parser fs) as [[found parser']|e] eqn:Hcheck; [|done].
  simpl. destruct found; [|intros [= <-]; by left].
  destruct (update_most_recent_matches parser' fs) as [fs'|e]; [|done]. simpl.
  destruct (parse_stats (export_most_recent_match_to_json parser' fs'))
    as [payloads|e] eqn:Hstats; [|done].
  simpl. intros [= <-]. right. simpl.
  assert (Hsame : matches parser' = matches parser).
  { unfold check_for_new_matches in Hcheck. destruct (matches parser) eqn:Hms; [done|].
    destruct (load_most_recent_matches fs) as [[df|]|]; simpl in Hcheck;
      [case_bool_decide| |]; by simplify_eq. }
  destruct (matches parser') as [|first rest] eqn:Hms.
  { unfold check_for_new_matches in Hcheck. rewrite <- Hsame in Hcheck. done. }
  exists first, rest, payloads.
  unfold export_most_recent_match_to_json in *. rewrite Hms in *. done.
Qed.
End PipelineFacts.

(** ** Further properties of the code *)

(** *** Dictionaries and the shape of a normalized match *)

Section DictFacts.
Context {V : Type}.
Implicit Types (d : list (string * V)) (k : string) (v : V).

Lemma dict_lookup_None k d : dict_lookup k d = None ↔ k ∉ d.*1.
Proof.
  induction d as [|[k' v'] d IH]; simpl.
  - split; [intros _; apply not_elem_of_nil | done].
  - case_decide as Hk; rewrite not_elem_of_cons.
    + split; [done | intros [? _]; done].
    + rewrite IH. tauto.
Qed.

Lemma dict_lookup_Some k v d : dict_lookup k d = Some v → (k, v) ∈ d.
Proof.
  induction d as [|[k' v'] d IH]; simpl; [done|].
  case_decide as Hk.
  - intros [= ->]. subst. by left.
  - intros ?. right. by apply IH.
Qed.

Lemma dict_lookup_NoDup k v d : NoDup d.*1 → (k, v) ∈ d → dict_lookup k d = Some v.
Proof.
  induction d as [|[k' v'] d IH]; simpl; [by intros _ ?%elem_of_nil|].
  intros [Hfresh Hnodup]%NoDup_cons [[= -> ->] | Hin]%elem_of_cons.
  - by rewrite decide_True.
  - rewrite decide_False; [by apply IH|].
    intros ->. apply Hfresh. by apply (list_elem_of_fmap_2 fst) in Hin.
Qed.

Lemma dict_set_fresh k v d : k ∉ d.*1 → dict_set k v d = (d ++ [(k, v)])%list.
Proof.
  induction d as [|[k' v'] d IH]; simpl; [done|].
  intros [Hne Hnot]%not_elem_of_cons.
  rewrite decide_False by done. by rewrite IH.
Qed.

Lemma dict_lookup_dict_set k k' v d :
  dict_lookup k (dict_set k' v d) = if decide (k = k') then Some v else dict_lookup k d.
Proof.
  induction d as [|[k'' v''] d IH]; simpl.
  - by case_decide.
  - destruct (decide (k' = k'')) as [->|Hne]; simpl.
    + by case_decide.
    + rewrite IH. repeat case_decide; congruence.
Qed.

Lemma elem_of_dict_set_keys k k' v d : k ∈ (dict_set k' v d).*1 ↔ k = k' ∨ k ∈ d.*1.
Proof.
  induction d as [|[k'' v''] d IH]; simpl.
  - rewrite list_elem_of_singleton, elem_of_nil. tauto.
  - case_decide as Hk; simpl; rewrite !elem_of_cons; [subst; tauto|].
    rewrite IH. tauto.
Qed.

Lemma NoDup_dict_set k v d : NoDup d.*1 → NoDup (dict_set k v d).*1.
Proof.
  induction d as [|[k' v'] d IH]; simpl.
  - intros _. apply NoDup_singleton.
  - intros [Hfresh Hnodup]%NoDup_cons. case_decide as Hk; simpl.
    + subst. by apply NoDup_cons.
    + apply NoDup_cons. split; [|by apply IH].
      rewrite elem_of_dict_set_keys. intros [->|?]; done.
Qed.

Lemma elem_of_dict_set k k' v v' d :
  (k, v) ∈ dict_set k' v' d → (k = k' ∧ v = v') ∨ (k, v) ∈ d.
Proof.
  induction d as [|[k'' v''] d IH]; simpl.
  - intros [= -> ->]%list_elem_of_singleton. by left.
  - case_decide as Hk.
    + intros [[= -> ->] | ?]%elem_of_cons; [by left|]. right. by right.
    + intros [[= -> ->] | Hin]%elem_of_cons; [right; by left|].
      destruct (IH Hin) as [?|?]; [by left|]. right. by right.
Qed.
End DictFacts.

Section ShapeFacts.
Context `{PyBuiltins}.

Lemma bind_Ok {A B} (f : A → Result B) (r : Result A) (b : B) :
  r ≫= f = Ok b → ∃ a, r = Ok a ∧ f a = Ok b.
Proof. destruct r as [a|e]; [|done]. intros ?. by exists a. Qed.

Lemma parse_player_ids club pid v p :
  parse_player club pid v = Ok p → club_id p = club ∧ player_id p = pid.
Proof.
  unfold parse_player. intros Hp.
  repeat (apply bind_Ok in Hp as (? & _ & Hp)).
  injection Hp as <-. done.
Qed.

Lemma parse_players_ids club entries ps :
  parse_players club entries = Ok ps →
  Forall (λ p, club_id p = club) ps ∧ player_id <$> ps = entries.*1.
Proof.
  revert ps. induction entries as [|[pid v] entries IH]; intros ps; simpl.
  - by intros [= <-].
  - intros Hps. apply bind_Ok in Hps as (p & Hp & Hps).
    apply bind_Ok in Hps as (rest & Hrest & [= <-]).
    destruct (parse_player_ids _ _ _ _ Hp) as [? ?].
    destruct (IH _ Hrest) as [? Hids]. split; [by constructor|].
    rewrite !fmap_cons, Hids. simpl. by f_equal.
Qed.

Lemma parse_clubs_normal clubs acc res :
  parse_clubs clubs acc = Ok res →
  NoDup acc.*1 → clubs_consistent acc →
  NoDup res.*1 ∧ clubs_consistent res.
Proof.
  revert acc. induction clubs as [|[club v] clubs IH]; intros acc; simpl.
  - by intros [= <-].
  - intros Hres Hnodup Hacc.
    apply bind_Ok in Hres as (entries & _ & Hres).
    apply bind_Ok in Hres as (ps & Hps & Hres).
    apply (IH _ Hres); [by apply NoDup_dict_set|].
    apply Forall_forall. intros [c qs] Hin.
    apply elem_of_dict_set in Hin as [[-> ->] | Hin]; simpl.
    + by apply parse_players_ids in Hps as [? _].
    + by apply (proj1 (Forall_forall _ _) Hacc (c, qs)).
Qed.

Lemma parse_match_row_normalized (row : Row) (m : MatchData) :
  _parse_match_row row = Ok m → normalized m.
Proof.
  unfold _parse_match_row. intros Hm.
  repeat (apply bind_Ok in Hm as (? & ? & Hm)).
  injection Hm as <-. simpl. eapply parse_clubs_normal; [done|constructor|constructor].
Qed.

(** X1.  A match the normalizer returns lists every club once, and each
    player it lists under a club carries that club's id. *)
Theorem normalizer_groups_players_by_club (row : Row) (m : MatchData) :
  _parse_match_row row = Ok m →
  NoDup (players_by_club m).*1
  ∧ ∀ club players p,
      (club, players) ∈ players_by_club m → p ∈ players → club_id p = club.
Proof.
  intros [Hnodup Hcons]%parse_match_row_normalized. split; [done|].
  intros club players p Hin Hp.
  apply (proj1 (Forall_forall _ _) Hcons) in Hin. simpl in Hin.
  by apply (proj1 (Forall_forall _ _) Hin).
Qed.

Lemma parse_clubs_in_order clubs acc res :
  parse_clubs clubs acc = Ok res →
  NoDup clubs.*1 → (∀ c, c ∈ clubs.*1 → c ∉ acc.*1) →
  ∃ new,
    res = (acc ++ new)%list
    ∧ Forall2 (λ upstream entry,
                 entry.1 = upstream.1
                 ∧ ∃ players, upstream.2 = VDict players
                              ∧ player_id <$> entry.2 = players.*1)
        clubs new.
Proof.
  revert acc. induction clubs as [|[club v] clubs IH]; intros acc; simpl.
  - intros [= <-] _ _. exists []. by rewrite app_nil_r.
  - intros Hres [Hfresh Hnodup]%NoDup_cons Hdisjoint.
    apply bind_Ok in Hres as (entries & Hentries & Hres).
    apply bind_Ok in Hres as (ps & Hps & Hres).
    rewrite dict_set_fresh in Hres by (apply Hdisjoint; by left).
    apply IH in Hres as (new & -> & Hnew); [|done|].
    + exists ((club, ps) :: new). split; [by rewrite <- app_assoc|].
      constructor; [|done]. split; [done|]. exists entries. simpl.
      destruct v; try done. injection Hentries as ->.
      by apply parse_players_ids in Hps as [_ ?].
    + intros c Hc. rewrite fmap_app, elem_of_app. simpl.
      rewrite list_elem_of_singleton. intros [Hin | ->]; [|done].
      apply (Hdisjoint c); [by right | done].
Qed.

(** X2.  The normalizer keeps the order of the decoded players value:
    the clubs of the match are the upstream clubs in their order, and
    under each club the players are the upstream players in theirs. *)
Theorem normalizer_keeps_upstream_order (row : Row) (v : PyVal)
    (clubs : list (string * PyVal)) (m : MatchData) :
  row !! "players" = Some v →
  literal_eval (py_str v) = Ok (VDict clubs) →
  NoDup clubs.*1 →
  _parse_match_row row = Ok m →
  (players_by_club m).*1 = clubs.*1
  ∧ Forall2 (λ upstream entry,
               ∃ players, upstream.2 = VDict players
                          ∧ player_id <$> entry.2 = players.*1)
      clubs (players_by_club m).
Proof.
  intros Hv Hdecode Hnodup. unfold _parse_match_row, row_get. rewrite Hv.
  intros Hm. do 3 (apply bind_Ok in Hm as (? & _ & Hm)). simpl in Hm.
  unfold decode_players in Hm. rewrite Hdecode in Hm. simpl in Hm.
  apply bind_Ok in Hm as (res & Hres & [= <-]). simpl.
  apply parse_clubs_in_order in Hres as (new & -> & Hnew);
    [|done|intros c _; apply not_elem_of_nil]. simpl.
  split.
  - clear -Hnew. induction Hnew as [|[c cv] [c' ps] ? ? [Hc _] _ IH]; [done|].
    rewrite !fmap_cons. simpl in *. by f_equal.
  - eapply Forall2_impl; [done|]. by intros ? ? [_ ?].
Qed.
End ShapeFacts.

(** *** Which rows normalize *)

Ltac solve_listed := first [by left | right; solve_listed].

Section SuccessFacts.
Context `{PyBuiltins}.

Lemma parse_player_returns_iff club pid v :
  (∃ p, parse_player club pid v = Ok p) ↔ ∃ stats, v = VDict stats ∧ coerces stats.
Proof.
  split.
  - intros [p Hp]. destruct v as [| | | | | |stats]; try done.
    exists stats. split; [done|]. unfold parse_player, py_get in Hp.
    repeat (apply bind_Ok in Hp as (? & ? & Hp)). simpl in *.
    split; [by eexists|]. intros field Hin. unfold int_fields in Hin.
    repeat (apply elem_of_cons in Hin as [-> | Hin]); eauto.
    by apply elem_of_nil in Hin.
  - intros (stats & -> & [f Hf] & Hint). unfold parse_player, py_get. simpl.
    rewrite Hf. simpl.
    repeat match goal with
      | |- context [py_int (default (VInt 0) (dict_lookup ?field stats))] =>
          let z := fresh "z" in
          destruct (Hint field) as [z ->]; [unfold int_fields; solve_listed|]; simpl
      end.
    by eexists.
Qed.

Lemma parse_players_returns_iff club entries :
  (∃ ps, parse_players club entries = Ok ps)
  ↔ Forall (λ player, ∃ stats, player.2 = VDict stats ∧ coerces stats) entries.
Proof.
  induction entries as [|[pid v] entries IH]; simpl.
  - split; [constructor | by eexists].
  - rewrite Forall_cons, <- IH, <- (parse_player_returns_iff club pid v). simpl. split.
    + intros [ps Hps]. apply bind_Ok in Hps as (p & Hp & Hps).
      apply bind_Ok in Hps as (rest & Hrest & _). split; by eexists.
    + intros [[p ->] [rest ->]]. by eexists.
Qed.

Lemma parse_clubs_returns_iff clubs :
  ∀ acc,
    (∃ res, parse_clubs clubs acc = Ok res)
    ↔ Forall (λ club, ∃ players,
                club.2 = VDict players
                ∧ Forall (λ player, ∃ stats, player.2 = VDict stats ∧ coerces stats)
                    players)
        clubs.
Proof.
  induction clubs as [|[club v] clubs IH]; intros acc; simpl.
  - split; [constructor | by eexists].
  - rewrite Forall_cons. simpl. split.
    + intros [res Hres]. apply bind_Ok in Hres as (entries & Hentries & Hres).
      apply bind_Ok in Hres as (ps & Hps & Hres).
      destruct v; try done. injection Hentries as ->. split.
      * eexists. split; [done|]. apply (parse_players_returns_iff club). by eexists.
      * apply (IH (dict_set club ps acc)). by eexists.
    + intros [(players & -> & Hplayers) Hclubs]. simpl.
      apply (parse_players_returns_iff club) in Hplayers as [ps ->]. simpl.
      by apply IH.
Qed.

Lemma decode_players_Ok s v : decode_players s = Ok v ↔ literal_eval s = Ok v.
Proof. unfold decode_players. by destruct (literal_eval s) as [|[]]. Qed.

(** X3.  A row normalizes exactly when it has the four cells read by
    subscript and its players cell decodes to a mapping of clubs to
    mappings of players to mappings whose rating [float] accepts and
    whose counts [int] accepts, absent fields counting as 0.  Nothing
    else of a row can make it fail. *)
Theorem row_normalizes_iff_well_formed (row : Row) :
  (∃ m, _parse_match_row row = Ok m)
  ↔ is_Some (row !! "matchId") ∧ is_Some (row !! "timestamp")
    ∧ is_Some (row !! "timeAgo")
    ∧ ∃ v data, row !! "players" = Some v
                ∧ literal_eval (py_str v) = Ok data
                ∧ well_formed_players data.
Proof.
  unfold _parse_match_row, row_get. split.
  - intros [m Hm].
    destruct (row !! "matchId"); [|done].
    destruct (row !! "timestamp"); [|done].
    destruct (row !! "timeAgo"); [|done].
    destruct (row !! "players") as [v|]; [|done]. simpl in Hm.
    apply bind_Ok in Hm as (data & Hdata%decode_players_Ok & Hm).
    apply bind_Ok in Hm as (clubs & Hclubs & Hm).
    apply bind_Ok in Hm as (res & Hres & _).
    do 3 (split; [by eexists|]). exists v, data. do 2 (split; [done|]).
    destruct data; try done. injection Hclubs as ->.
    eexists. split; [done|]. apply (parse_clubs_returns_iff _ []). by eexists.
  - intros ([mid ->] & [ts ->] & [ago ->] & v & data & -> & Hdata & clubs & -> & Hclubs).
    simpl. apply decode_players_Ok in Hdata as ->. simpl.
    apply (parse_clubs_returns_iff _ []) in Hclubs as [res ->]. by eexists.
Qed.
End SuccessFacts.

(** *** Club lookups, repeated detection, export and extraction *)

Section LookupFacts.

Lemma filter_other_clubs (d : list (string * list PlayerStats)) (club : string) :
  clubs_consistent d → club ∉ d.*1 →
  filter (λ p, club_id p = club) ('(_, players) ← d; players) = [].
Proof.
  induction d as [|[k ps] d IH]; [done|].
  intros [Hps Hd]%Forall_cons [Hne Hnot]%not_elem_of_cons.
  rewrite bind_cons, filter_app, IH by done. rewrite app_nil_r. simpl in *.
  clear -Hps Hne. induction Hps as [|p ps Hp _ IH]; [done|].
  rewrite filter_cons_False; [done|]. congruence.
Qed.

Lemma filter_own_club (ps : list PlayerStats) (club : string) :
  Forall (λ p, club_id p = club) ps → filter (λ p, club_id p = club) ps = ps.
Proof.
  induction 1 as [|p ps Hp _ IH]; [done|]. by rewrite filter_cons_True, IH.
Qed.

Lemma filter_flattened (d : list (string * list PlayerStats)) (club : string) :
  NoDup d.*1 → clubs_consistent d →
  filter (λ p, club_id p = club) ('(_, players) ← d; players)
  = default [] (dict_lookup club d).
Proof.
  induction d as [|[k ps] d IH]; [done|].
  intros [Hfresh Hnodup]%NoDup_cons [Hps Hd]%Forall_cons.
  rewrite bind_cons, filter_app. simpl in *. case_decide as Hk.
  - subst. rewrite filter_own_club, filter_other_clubs by done. apply app_nil_r.
  - rewrite IH by done. replace (filter _ ps) with (@nil PlayerStats); [done|].
    clear -Hps Hk. induction Hps as [|p ps Hp _ IH]; [done|].
    rewrite filter_cons_False; [done|]. congruence.
Qed.

(** X4.  For a parser whose first match is as the normalizer builds
    them, [get_most_recent_match] returns and stores a match whose
    players, filtered by club, are the players [MatchData] lists under
    that club: the two [get_players_for_club] agree, also on a club that
    did not play. *)
Theorem both_club_lookups_agree (self : MatchPlayerParser) (first : MatchData)
    (rest : list MatchData) (club : string) :
  matches self = first :: rest →
  normalized first →
  ∃ recent,
    (get_most_recent_match self).1 = Some recent
    ∧ most_recent_match (get_most_recent_match self).2 = Some recent
    ∧ MostRecentMatch_get_players_for_club recent club
      = MatchData_get_players_for_club first club.
Proof.
  intros Hms [Hnodup Hcons]. unfold get_most_recent_match. rewrite Hms.
  eexists. split; [done|]. split; [done|].
  unfold MostRecentMatch_get_players_for_club, MatchData_get_players_for_club. simpl.
  by apply filter_flattened.
Qed.

(** X5.  The detector changes nothing it decides on: it leaves the
    match list and the stored most recent match as they were, and a
    second call on the same files gives the same answer and the same
    parser. *)
Theorem detection_is_repeatable (self self' : MatchPlayerParser) (fs : Files)
    (found : bool) :
  check_for_new_matches self fs = Ok (found, self') →
  check_for_new_matches self' fs = Ok (found, self')
  ∧ matches self' = matches self
  ∧ most_recent_match self' = most_recent_match self.
Proof.
  unfold check_for_new_matches. destruct self as [ms mr flag]. simpl.
  destruct ms as [|m ms].
  - by intros [= <- <-].
  - destruct (load_most_recent_matches fs) as [[df|]|e]; simpl; [| |done].
    + case_bool_decide as Hnew; intros [= <- <-]; simpl.
      * by rewrite bool_decide_eq_true_2 by done.
      * rewrite bool_decide_eq_false_2; [done|]. intros Hne. by apply Hne.
    + by intros [= <- <-].
Qed.
End LookupFacts.

Section ExportFacts.
Context `{PyBuiltins}.

Lemma export_clubs_NoDup (d : list (string * list PlayerStats)) :
  ∀ acc,
    NoDup d.*1 → (∀ c, c ∈ d.*1 → c ∉ acc.*1) →
    foldl (λ acc '(club, players), dict_set club (VList (export_player <$> players)) acc)
      acc d
    = (acc ++ ((λ entry, (entry.1, VList (export_player <$> entry.2))) <$> d))%list.
Proof.
  induction d as [|[k ps] d IH]; intros acc; simpl.
  - by rewrite app_nil_r.
  - intros [Hfresh Hnodup]%NoDup_cons Hdisjoint.
    rewrite dict_set_fresh by (apply Hdisjoint; by left).
    rewrite IH; [by rewrite <- app_assoc|done|].
    intros c Hc. rewrite fmap_app, elem_of_app. simpl. rewrite list_elem_of_singleton.
    intros [Hin | ->]; [|done]. apply (Hdisjoint c); [by right|done].
Qed.

Lemma dict_lookup_fmap_values {A B} (f : A → B) (d : list (string * A)) (k : string) :
  dict_lookup k ((λ entry, (entry.1, f entry.2)) <$> d) = f <$> dict_lookup k d.
Proof.
  induction d as [|[k' v] d IH]; [done|]. rewrite fmap_cons. simpl. by case_decide.
Qed.

(** X11.  Export followed by extraction.  What [parse_stats] reads from
    the file [export_most_recent_match_to_json] wrote is the facts of
    the players the first match lists under the tracked club, in their
    order; it raises [KeyError] when that club is not in the match. *)
Theorem export_then_extract (self : MatchPlayerParser) (fs : Files)
    (first : MatchData) (rest : list MatchData) :
  matches self = first :: rest →
  NoDup (players_by_club first).*1 →
  parse_stats (export_most_recent_match_to_json self fs)
  = match dict_lookup tracked_club (players_by_club first) with
    | Some players => Ok (players ≫= player_facts)
    | None => Raise (KeyError tracked_club)
    end.
Proof.
  intros Hms Hnodup. unfold export_most_recent_match_to_json, parse_stats.
  rewrite Hms. simpl.
  rewrite export_clubs_NoDup; [|done|intros c _; apply not_elem_of_nil]. simpl.
  rewrite (dict_lookup_fmap_values (λ ps, VList (export_player <$> ps))).
  destruct (dict_lookup tracked_club (players_by_club first)) as [ps|]; simpl; [|done].
  apply payloads_for_export.
Qed.
End ExportFacts.

(** *** A merged batch is known *)

Section MergeFacts.






End MergeFacts.

(** *** What a merge writes *)

Section MergeAlgebra.

Lemma update_on_table (self : MatchPlayerParser) (fs : Files)
    (rows : list (HistoryRow string)) :
  matches self ≠ [] →
  most_recent_matches_csv fs = Table rows →
  update_most_recent_matches self fs
  = Ok (set_history
          (Table (to_csv (drop_duplicates_last
                            (read_csv_history rows ++ current_matches_data (matches self)))))
          fs).
Proof.
  intros Hms Hfile. unfold update_most_recent_matches, merged_history,
    load_most_recent_matches.
  destruct (matches self); [done|]. by rewrite Hfile.
Qed.

(** X7.  A merge into an existing history loses no match and no
    player, and invents none: the keys (match id, player id) of the
    file written are exactly those of the rows read and of the current
    matches, as texts. *)
Theorem merge_keeps_every_key (self : MatchPlayerParser) (fs : Files)
    (rows : list (HistoryRow string)) :
  matches self ≠ [] →
  most_recent_matches_csv fs = Table rows →
  ∃ rows',
    update_most_recent_matches self fs = Ok (set_history (Table rows') fs)
    ∧ ∀ k, k ∈ history_key <$> rows'
           ↔ ∃ r, r ∈ (read_csv_history rows ++ current_matches_data (matches self))%list
                  ∧ k = (cell_text (h_matchId r), cell_text (h_player_id r)).
Proof.
  intros Hms Hfile. eexists. split; [by apply update_on_table|].
  intros k. rewrite history_key_to_csv, list_elem_of_fmap. split.
  - intros (k0 & -> & Hk0). apply (proj1 (keys_drop_duplicates_last _ _)) in Hk0.
    apply list_elem_of_fmap in Hk0 as (r & -> & Hr). by exists r.
  - intros (r & Hr & ->). exists (history_key r). split; [done|].
    by apply keys_drop_duplicates_last, list_elem_of_fmap_2.
Qed.

Lemma drop_duplicates_last_app (a b : list (HistoryRow Cell)) :
  drop_duplicates_last (a ++ b)
  = (filter (λ r, history_key r ∉ history_key <$> b) (drop_duplicates_last a)
     ++ drop_duplicates_last b)%list.
Proof.
  induction a as [|r a IH]; [done|]. cbn [app drop_duplicates_last].
  rewrite fmap_app, IH.
  destruct (decide (history_key r ∈ history_key <$> a)) as [Ha | Ha].
  - rewrite !bool_decide_eq_true_2; [done|done|]. apply elem_of_app. by left.
  - rewrite (bool_decide_eq_false_2 (history_key r ∈ history_key <$> a)) by done.
    destruct (decide (history_key r ∈ history_key <$> b)) as [Hb | Hb].
    + rewrite bool_decide_eq_true_2 by (apply elem_of_app; by right).
      by rewrite filter_cons_False by (by intros ?).
    + rewrite bool_decide_eq_false_2 by (rewrite elem_of_app; by intros [?|?]).
      by rewrite filter_cons_True.
Qed.

Lemma drop_duplicates_last_NoDup (l : list (HistoryRow Cell)) :
  NoDup (history_key <$> l) → drop_duplicates_last l = l.
Proof.
  induction l as [|r l IH]; [done|]. rewrite fmap_cons.
  intros [Hfresh Hnodup]%NoDup_cons. simpl.
  by rewrite bool_decide_eq_false_2, IH.
Qed.

Lemma filter_keys_all_in (l b : list (HistoryRow Cell)) :
  (∀ r, r ∈ l → history_key r ∈ history_key <$> b) →
  filter (λ r, history_key r ∉ history_key <$> b) l = [].
Proof.
  induction l as [|r l IH]; [done|]. intros Hall.
  rewrite filter_cons_False; [|intros Hnot; apply Hnot, Hall; by left].
  apply IH. intros r' Hr'. apply Hall. by right.
Qed.

(** In a frame, merging the same rows a second time changes nothing. *)
Lemma merge_frame_twice (a b : list (HistoryRow Cell)) :
  drop_duplicates_last (drop_duplicates_last (a ++ b) ++ b)
  = drop_duplicates_last (a ++ b).
Proof.
  rewrite (drop_duplicates_last_app (drop_duplicates_last (a ++ b)) b).
  rewrite (drop_duplicates_last_NoDup (drop_duplicates_last (a ++ b)))
    by apply NoDup_drop_duplicates_last.
  rewrite (drop_duplicates_last_app a b) at 2. f_equal.
  rewrite (drop_duplicates_last_app a b), filter_app.
  rewrite (filter_keys_all_in (drop_duplicates_last b)).
  - rewrite app_nil_r. rewrite list_filter_filter. apply list_filter_iff.
    intros r. tauto.
  - intros r Hr. by apply list_elem_of_fmap_2, elem_of_drop_duplicates_last.
Qed.

(** X8.  When the ids of the history file are read as text, the merge
    does what its comment says: the file written has no two rows with
    the same match and player, and a row whose key occurs among the
    current matches is the current one, not the one of the file. *)
Theorem merge_of_text_ids_replaces (self : MatchPlayerParser) (fs : Files)
    (rows : list (HistoryRow string)) :
  matches self ≠ [] →
  most_recent_matches_csv fs = Table rows →
  Forall text_keyed (read_csv_history rows) →
  let current := current_matches_data (matches self) in
  ∃ frame,
    update_most_recent_matches self fs = Ok (set_history (Table (to_csv frame)) fs)
    ∧ NoDup (history_key <$> to_csv frame)
    ∧ (∀ r, r ∈ frame → history_key r ∈ history_key <$> current →
            r ∈ drop_duplicates_last current)
    ∧ (∀ r, r ∈ drop_duplicates_last current → r ∈ frame).
Proof.
  intros Hms Hfile Htext current.
  exists (drop_duplicates_last (read_csv_history rows ++ current)).
  split; [by apply update_on_table|].
  split; [by apply merge_of_text_ids_has_no_duplicates|].
  split; [apply drop_duplicates_last_app_new|].
  intros r Hr. rewrite drop_duplicates_last_app, elem_of_app. by right.
Qed.

(** X9.  When the merged rows read back from the file as they were
    written, merging the same matches again leaves the file as the
    first merge wrote it. *)
Theorem merge_twice_when_ids_read_back (self : MatchPlayerParser) (fs : Files)
    (rows : list (HistoryRow string)) :
  matches self ≠ [] →
  most_recent_matches_csv fs = Table rows →
  let frame :=
    drop_duplicates_last (read_csv_history rows ++ current_matches_data (matches self)) in
  read_csv_history (to_csv frame) = frame →
  ∃ fs',
    update_most_recent_matches self fs = Ok fs'
    ∧ update_most_recent_matches self fs' = Ok fs'.
Proof.
  intros Hms Hfile frame Hback.
  exists (set_history (Table (to_csv frame)) fs).
  split; [by apply update_on_table|].
  rewrite (update_on_table self _ (to_csv frame)) by done.
  rewrite Hback. subst frame. rewrite merge_frame_twice. by destruct fs.
Qed.

End MergeAlgebra.

(** *** The steps of a turn of the loop *)

Section HelperFacts.
Context `{PyBuiltins}.

Lemma parse_stats_of_export (fs : Files) (first : MatchData) :
  newest_match_json fs = Some (VList [export_match first]) →
  NoDup (players_by_club first).*1 →
  parse_stats fs
  = match dict_lookup tracked_club (players_by_club first) with
    | Some players => Ok (players ≫= player_facts)
    | None => Raise (KeyError tracked_club)
    end.
Proof.
  intros Hfile Hnodup. unfold parse_stats. rewrite Hfile. simpl.
  rewrite export_clubs_NoDup; [|done|intros c _; apply not_elem_of_nil]. simpl.
  rewrite (dict_lookup_fmap_values (λ ps, VList (export_player <$> ps))).
  destruct (dict_lookup tracked_club (players_by_club first)) as [ps|]; simpl; [|done].
  apply payloads_for_export.
Qed.

Lemma parsed_normalized (rows : list Row) : Forall normalized (parsed rows).
Proof.
  apply Forall_forall. intros m (row & _ & Hrow)%elem_of_parsed.
  by eapply parse_match_row_normalized.
Qed.

Lemma check_keeps_matches (self self' : MatchPlayerParser) (fs : Files) (found : bool) :
  check_for_new_matches self fs = Ok (found, self') → matches self' = matches self.
Proof.
  unfold check_for_new_matches. destruct self as [ms mr flag]. simpl.
  destruct ms as [|m ms]; [by intros [= <- <-]|].
  destruct (load_most_recent_matches fs) as [[df|]|e]; simpl; [| |done].
  - case_bool_decide; by intros [= <- <-].
  - by intros [= <- <-].
Qed.

Lemma check_found_nonempty (self self' : MatchPlayerParser) (fs : Files) :
  check_for_new_matches self fs = Ok (true, self') → matches self ≠ [].
Proof. unfold check_for_new_matches. by destruct (matches self). Qed.

Lemma check_false_when_known (self : MatchPlayerParser) (fs : Files)
    (rows : list (HistoryRow string)) :
  most_recent_matches_csv fs = Table rows →
  (∀ m, m ∈ matches self →
        match_id m ∈ existing_match_ids (read_csv_history rows)) →
  ∃ self', check_for_new_matches self fs = Ok (false, self')
           ∧ matches self' = matches self.
Proof.
  intros Hfile Hknown. unfold check_for_new_matches, load_most_recent_matches.
  rewrite Hfile. destruct (matches self) as [|m ms] eqn:Hms.
  { exists self. by rewrite Hms. }
  exists (set_new_matches_detected false self). split; [|done]. simpl.
  rewrite bool_decide_eq_false_2; [done|].
  intros Hnew. apply Hnew. apply set_eq. intros id.
  rewrite elem_of_new_match_ids. split; [|by intros ?%not_elem_of_empty].
  intros [(m0 & Hm0 & <-) Hnot]. destruct Hnot. by apply Hknown.
Qed.



(** What a turn that returns has done. *)
Lemma cycle_returns (matches_df : option (list Row)) (st st' : Loop) :
  cycle matches_df st = Ok st' →
  let fs := fetched_files matches_df (files st) in
  ∃ rows found,
    club_matches_csv fs = Some rows
    ∧ check_for_new_matches
        (set_matches (matches (match_parser st) ++ parsed rows) (match_parser st)) fs
      = Ok (found, match_parser st')
    ∧ matches (match_parser st') = (matches (match_parser st) ++ parsed rows)%list
    ∧ if found
      then ∃ fs' payloads,
             update_most_recent_matches (match_parser st') fs = Ok fs'
             ∧ files st' = export_most_recent_match_to_json (match_parser st') fs'
             ∧ parse_stats (files st') = Ok payloads
             ∧ sent st' = (sent st ++ payloads)%list
      else files st' = fs ∧ sent st' = sent st.
Proof.
  unfold cycle. fold (fetched_files matches_df (files st)).
  set (fs := fetched_files matches_df (files st)). intros Hcycle. simpl.
  destruct (club_matches_csv fs) as [rows|] eqn:Hrows;
    [|unfold parse_csv in Hcycle; by rewrite Hrows in Hcycle].
  rewrite (parse_csv_spec _ fs rows Hrows) in Hcycle. simpl in Hcycle.
  destruct (check_for_new_matches _ fs) as [[found parser']|e] eqn:Hcheck; [|done].
  simpl in Hcycle. exists rows, found.
  pose proof (check_keeps_matches _ _ _ _ Hcheck) as Hsame. simpl in Hsame.
  destruct found.
  - destruct (update_most_recent_matches parser' fs) as [fs'|e] eqn:Hupdate; [|done].
    simpl in Hcycle.
    destruct (parse_stats (export_most_recent_match_to_json parser' fs'))
      as [payloads|e] eqn:Hstats; [|done].
    injection Hcycle as <-. simpl. do 3 (split; [done|]). by exists fs', payloads.
  - injection Hcycle as <-. by simpl.
Qed.
End HelperFacts.

(** *** What a turn sends *)

Section TurnFacts.
Context `{PyBuiltins}.


(** X12.  A turn of the loop that returns either sends nothing or sends
    exactly the facts of the tracked club's players in the first match
    of the parser's list, five per player, after what was sent before. *)
Theorem dispatch_reports_first_of_list (matches_df : option (list Row)) (st st' : Loop) :
  Forall normalized (matches (match_parser st)) →
  cycle matches_df st = Ok st' →
  sent st' = sent st
  ∨ ∃ first rest players,
      matches (match_parser st') = first :: rest
      ∧ newest_match_json (files st') = Some (VList [export_match first])
      ∧ dict_lookup tracked_club (players_by_club first) = Some players
      ∧ sent st' = (sent st ++ (players ≫= player_facts))%list.
Proof.
  intros Hnormal Hcycle.
  destruct (cycle_returns _ _ _ Hcycle) as (rows & found & _ & Hcheck & Hms & Hdone).
  destruct found; [|left; destruct Hdone as [_ Hsent]; exact Hsent].
  destruct Hdone as (fs' & payloads & _ & Hfiles & Hstats & Hsent). right.
  apply check_found_nonempty in Hcheck. simpl in Hcheck. rewrite <- Hms in Hcheck.
  destruct (matches (match_parser st')) as [|first rest] eqn:Hfirst; [done|].
  assert (Hjson : newest_match_json (files st') = Some (VList [export_match first])).
  { rewrite Hfiles. unfold export_most_recent_match_to_json. by rewrite Hfirst. }
  assert (NoDup (players_by_club first).*1) as Hnodup.
  { assert (Forall normalized (first :: rest)) as Hall.
    { rewrite Hms. apply Forall_app. split; [done|apply parsed_normalized]. }
    by apply Forall_cons in Hall as [[? _] _]. }
  rewrite (parse_stats_of_export _ first Hjson Hnodup) in Hstats.
  destruct (dict_lookup tracked_club (players_by_club first)) as [players|] eqn:Hclub;
    [|done].
  injection Hstats as <-. by exists first, rest, players.
Qed.

(** X13.  A turn in which every match held and every match parsed is
    already in the history returns, sends nothing and writes no file
    but the fetched frame. *)
Theorem known_matches_send_nothing (matches_df : option (list Row)) (st : Loop)
    (rows : list Row) (history : list (HistoryRow string)) :
  club_matches_csv (fetched_files matches_df (files st)) = Some rows →
  most_recent_matches_csv (files st) = Table history →
  (∀ m, m ∈ (matches (match_parser st) ++ parsed rows)%list →
        match_id m ∈ existing_match_ids (read_csv_history history)) →
  ∃ parser,
    cycle matches_df st = Ok (mkLoop parser (fetched_files matches_df (files st)) (sent st))
    ∧ matches parser = (matches (match_parser st) ++ parsed rows)%list.
Proof.
  intros Hrows Hhistory Hknown. unfold cycle.
  fold (fetched_files matches_df (files st)).
  set (fs := fetched_files matches_df (files st)) in *.
  rewrite (parse_csv_spec _ fs rows Hrows). simpl.
  assert (most_recent_matches_csv fs = Table history) as Hfs.
  { subst fs. unfold fetched_files. by destruct matches_df as [[|? ?]|]. }
  destruct (check_false_when_known
              (set_matches (matches (match_parser st) ++ parsed rows) (match_parser st))
              fs history Hfs Hknown) as (parser & -> & Hms).
  simpl. by exists parser.
Qed.

End TurnFacts.

Section MoreTurnFacts.
Context `{PyBuiltins}.

End MoreTurnFacts.

(** *** The URL builder, and the failures of a turn *)

Lemma lstrip_strips_all (c : ascii) (s : string) :
  py_startswith (String c EmptyString) (py_lstrip c s) = false.
Proof.
  induction s as [|a rest IH]; [done|].
  cbn [py_lstrip]. destruct (Ascii.eqb a c) eqn:Ha; [done|].
  unfold py_startswith. simpl. destruct (ascii_dec c a) as [<-|]; [|done].
  by rewrite Ascii.eqb_refl in Ha.
Qed.

(** X17.  [_build_url] returns a text that starts with http and is left
    unchanged by a second call; an absolute URL is returned as it is,
    and for a relative endpoint a leading slash makes no difference and
    what follows the base and its slash starts with no slash. *)
Theorem build_url_absolute_and_stable (endpoint : string) :
  py_startswith "http" (_build_url endpoint) = true
  ∧ _build_url (_build_url endpoint) = _build_url endpoint
  ∧ if py_startswith "http" endpoint
    then _build_url endpoint = endpoint
    else _build_url ("/" +:+ endpoint) = _build_url endpoint
         ∧ py_startswith "/" (py_lstrip "/" endpoint) = false.
Proof.
  assert (py_startswith "http" (_build_url endpoint) = true) as Habs.
  { unfold _build_url. by destruct (py_startswith "http" endpoint) eqn:Hhttp. }
  split; [done|]. split.
  { unfold _build_url at 1. by rewrite Habs. }
  unfold _build_url. destruct (py_startswith "http" endpoint) eqn:Hhttp; [done|].
  split; [done|]. apply lstrip_strips_all.
Qed.

Section TurnFailures.
Context `{PyBuiltins}.

End TurnFailures.

(** ** Worked cases *)

(** Witness for C9: of the four rows of [mixed_rows] the first is
    appended and the other three are reported, each with its index. *)
Lemma mixed_rows_parse :
  parse_csv new_parser (set_club_matches mixed_rows no_files)
  = Ok (holding [match_1001],
        [(1%nat, ValueError); (2%nat, KeyError "players"); (3%nat, ValueError)]).
Proof.
  destruct (failing_rows_are_skipped new_parser
              (set_club_matches mixed_rows no_files) mixed_rows eq_refl)
    as (Hrun & _).
  rewrite Hrun. vm_compute. reflexivity.
Defined.

(** Witness for C2: parsing the file of the first match again leaves
    that match twice in the list. *)
Lemma reparsing_keeps_first_match :
  parse_csv (holding [match_1001]) (export_dataframe [row_1001] no_files)
  = Ok (holding [match_1001; match_1001], []).
Proof.
  assert (Hlater : Forall (λ fs, is_Some (club_matches_csv fs))
                     [export_dataframe [row_1002; row_1001] no_files]).
  { repeat constructor. by eexists. }
  destruct (parse_csv_accumulates new_parser (export_dataframe [row_1001] no_files)
              [as_read row_1001]
              [export_dataframe [row_1002; row_1001] no_files] eq_refl Hlater)
    as (_ & Htwice & _).
  vm_compute in Htwice. vm_compute. exact Htwice.
Defined.

(** Witness for C10: a text with other spacing than the object's own
    normalizes as the object does. *)
Lemma spaced_literal_normalizes_alike :
  _parse_match_row (<["players" := VStr "{ '3439844' : { } }"]> (as_read row_1001))
  = _parse_match_row (<["players" := VDict [("3439844", VDict [])]]> (as_read row_1001)).
Proof.
  apply (literal_and_object_normalize_alike (as_read row_1001)
           (VDict [("3439844", VDict [])])).
  vm_compute. reflexivity.
Defined.

(** Counterexample to C3 as stated: for the batch A, B, C the detector
    returns the same boolean and the same parser whether A and B are
    known or only A is, while the new matches in fetch order are C in
    the first case and B, C in the second; what it returns does not hold
    the subset. *)
Lemma detector_output_hides_new_subset :
  check_for_new_matches (holding [match_A; match_B; match_C])
    (remembering [match_A; match_B])
  = Ok (true, set_new_matches_detected true (holding [match_A; match_B; match_C]))
  ∧ check_for_new_matches (holding [match_A; match_B; match_C])
      (remembering [match_A])
    = Ok (true, set_new_matches_detected true (holding [match_A; match_B; match_C]))
  ∧ new_matches_in_order [match_A; match_B; match_C]
      (existing_match_ids
         (read_csv_history (to_csv (current_matches_data [match_A; match_B]))))
    = [match_C]
  ∧ new_matches_in_order [match_A; match_B; match_C]
      (existing_match_ids
         (read_csv_history (to_csv (current_matches_data [match_A]))))
    = [match_B; match_C].
Proof. repeat split; vm_compute; reflexivity. Qed.

(** Witness for C3, amended: for the batch A, B, C and the known ids A
    and B the set computed is exactly C, and the detector returns true. *)
Lemma detector_example :
  new_match_ids [match_A; match_B; match_C]
    (read_csv_history (to_csv (current_matches_data [match_A; match_B])))
  = {["C"]}
  ∧ check_for_new_matches (holding [match_A; match_B; match_C])
      (remembering [match_A; match_B])
    = Ok (true, set_new_matches_detected true (holding [match_A; match_B; match_C])).
Proof.
  destruct (detector_returns_any_new (holding [match_A; match_B; match_C])
              (remembering [match_A; match_B])
              (to_csv (current_matches_data [match_A; match_B])) eq_refl)
    as (_ & _ & found & Hrun & Hfound & _).
  split; [vm_compute; reflexivity|].
  assert (found = true) as ->.
  { apply Hfound. exists match_C. split; [by do 2 right; left|].
    vm_compute. discriminate. }
  exact Hrun.
Defined.

(** Counterexample to C4 as stated: with no history file and an empty
    batch the detector returns false. *)
Lemma empty_batch_reports_nothing_new :
  load_most_recent_matches no_files = Ok None
  ∧ matches new_parser = []
  ∧ check_for_new_matches new_parser no_files = Ok (false, new_parser).
Proof. repeat split. Qed.

(** Witness for C4, amended: a first run on a batch of two matches. *)
Lemma first_run_example :
  load_most_recent_matches no_files = Ok None
  ∧ check_for_new_matches (holding [match_1002; match_1001]) no_files
    = Ok (true, set_new_matches_detected true (holding [match_1002; match_1001]))
  ∧ new_matches_in_order [match_1002; match_1001] ∅ = [match_1002; match_1001].
Proof.
  apply (absent_history_all_new (holding [match_1002; match_1001]) no_files).
  - reflexivity.
  - discriminate.
Defined.

(** Counterexample to C5 as stated: while the rows of match 1002 are
    merged into a history of match 1001, the history file is first
    empty, then holds the header alone, then the first old row alone:
    none of these is the old state or the new one. *)
Lemma interrupted_merge_leaves_partial_file :
  ∃ first_row second_row rest,
    most_recent_matches_csv (remembering [match_1001]) = Table [first_row; second_row]
    ∧ update_most_recent_matches (holding [match_1002]) (remembering [match_1001])
      = Ok (set_history (Table (first_row :: second_row :: rest))
              (remembering [match_1001]))
    ∧ length rest = 2%nat
    ∧ update_write_states (holding [match_1002]) (remembering [match_1001])
      = Ok (Blank :: Table [] :: Table [first_row] :: Table [first_row; second_row]
            :: Table (take 3 (first_row :: second_row :: rest))
            :: [Table (first_row :: second_row :: rest)]).
Proof. do 3 eexists. repeat split; vm_compute; reflexivity. Qed.

(** Witness for C5, amended: the same merge, run to its end. *)
Lemma merge_example :
  ∃ target states,
    update_most_recent_matches (holding [match_1002]) (remembering [match_1001])
    = Ok (set_history target (remembering [match_1001]))
    ∧ update_write_states (holding [match_1002]) (remembering [match_1001]) = Ok states
    ∧ states !! 0%nat = Some Blank
    ∧ last states = Some target
    ∧ ∀ h, h ∈ states →
           h = Blank ∨ ∃ rows n, target = Table rows ∧ h = Table (take n rows).
Proof.
  apply (merge_overwrites_in_place (holding [match_1002]) (remembering [match_1001]));
    discriminate.
Defined.

(** C6, at an input where the code departs from it.  The history file
    holds match 1001 with Alice's two goals; the parser holds the same
    match with five.  [read_csv] types the ids of the file as integers,
    the frame of the current matches holds them as strings, so
    [drop_duplicates] finds no equal keys: the file written has both
    rows for match 1001 and player 7, the old one first. *)
Theorem revised_match_is_stored_twice :
  ∃ rows,
    update_most_recent_matches (holding [match_1001_revised]) (remembering [match_1001])
    = Ok (set_history (Table rows) (remembering [match_1001]))
    ∧ history_key <$> rows = [("1001", "7"); ("1001", "9"); ("1001", "7"); ("1001", "9")]
    ∧ h_goals <$> rows = [2; 0; 5; 0]%Z.
Proof. eexists. repeat split; vm_compute; reflexivity. Qed.

(** C7, at an input where the code departs from it.  Merging match 1001
    into a missing history writes its two rows; merging the same match
    again writes four, since the ids read back as integers and the
    current ones are strings. *)
Theorem merging_twice_differs_from_once :
  ∃ once twice,
    update_most_recent_matches (holding [match_1001]) no_files
    = Ok (set_history (Table once) no_files)
    ∧ update_most_recent_matches (holding [match_1001]) (set_history (Table once) no_files)
      = Ok (set_history (Table twice) no_files)
    ∧ history_key <$> once = [("1001", "7"); ("1001", "9")]
    ∧ history_key <$> twice = [("1001", "7"); ("1001", "9"); ("1001", "7"); ("1001", "9")].
Proof. do 2 eexists. repeat split; vm_compute; reflexivity. Qed.

(** The two loops of the extractor, were they run on the stat names
    goals and assists alone, give the two payloads of the design
    document's example. *)
Example loops_on_two_stats :
  payloads_for ["goals"; "assists"]
    [VDict [("player_name", VStr "Alice"); ("goals", VInt 2); ("assists", VInt 1)]]
  = Ok ["Alice Goals 2"; "Alice Assists 1"].
Proof. reflexivity. Qed.

(** Counterexample to C8 as stated: for Alice with two goals and one
    assist the extractor returns five payloads, not two; given a player
    with only the name, goals and assists it raises on the third stat. *)
Lemma alice_yields_five_payloads :
  parse_stats (export_most_recent_match_to_json (holding [match_1001]) no_files)
  = Ok alice_payloads
  ∧ parse_stats (set_newest_match bare_alice_export no_files) = Raise (KeyError "passes")
  ∧ alice_payloads ≠ ["Alice Goals 2"; "Alice Assists 1"].
Proof. repeat split; try (vm_compute; reflexivity). discriminate. Qed.

(** Witness for C8, amended: the export of match 1001. *)
Lemma exported_alice_example :
  parse_stats (export_most_recent_match_to_json (holding [match_1001]) no_files)
  = Ok alice_payloads.
Proof.
  destruct (fact_extractor_fixed_stats
              (export_most_recent_match_to_json (holding [match_1001]) no_files)
              [("match_id", VStr "1001"); ("timestamp", VStr "2025-01-01 20:00:00");
               ("time_ago", VStr "{'number': 3, 'unit': 'hours'}");
               ("clubs", VDict [("3439844", VList [export_player (alice 2 1)]);
                                ("555", VList [export_player bob])])]
              []
              [("3439844", VList [export_player (alice 2 1)]);
               ("555", VList [export_player bob])]
              [alice 2 1] eq_refl eq_refl eq_refl) as [Hrun _].
  exact Hrun.
Defined.

(** C1, at an input where the code departs from it.  The API answers
    with match 1001, then with matches 1002 and 1001.  In the second
    turn the parser holds 1001, 1002, 1001, since [parse_csv] appends;
    the only new match is 1002, yet the match exported and reported is
    the first of the list, 1001, which is already known: Alice's two
    goals are sent again and her three goals of match 1002 never are. *)
Theorem stale_match_is_dispatched :
  ∃ after_first after_second known_rows,
    cycle (Some [row_1001]) fresh_loop = Ok after_first
    ∧ cycle (Some [row_1002; row_1001]) after_first = Ok after_second
    ∧ run [Some [row_1001]; Some [row_1002; row_1001]] fresh_loop = Ok after_second
    ∧ matches (match_parser after_second) = [match_1001; match_1002; match_1001]
    ∧ most_recent_matches_csv (files after_first) = Table known_rows
    ∧ new_matches_in_order (matches (match_parser after_second))
        (existing_match_ids (read_csv_history known_rows))
      = [match_1002]
    ∧ newest_match_json (files after_second) = Some (VList [export_match match_1001])
    ∧ sent after_first = alice_payloads
    ∧ sent after_second = (alice_payloads ++ alice_payloads)%list
    ∧ player_facts (alice 3 0)
      = ["Alice Goals 3"; "Alice Assists 0"; "Alice Passes 0"; "Alice Tackles 0";
         "Alice Redcards 0"].
Proof. do 3 eexists. repeat split; vm_compute; reflexivity. Qed.

(** ** Worked cases of the further properties *)

(** Witness for X1: the first fetched row. *)
Lemma alice_groups_example :
  _parse_match_row (as_read row_1001) = Ok match_1001
  ∧ NoDup (players_by_club match_1001).*1
  ∧ ∀ club players p,
      (club, players) ∈ players_by_club match_1001 → p ∈ players → club_id p = club.
Proof.
  split.
  - vm_compute. reflexivity.
  - apply (normalizer_groups_players_by_club (as_read row_1001) match_1001).
    vm_compute. reflexivity.
Defined.

(** Witness for X2: the clubs and players of the first fetched row. *)
Lemma upstream_order_example :
  (players_by_club match_1001).*1 = (clubs_of (stats_of "Alice" "2" "1")).*1
  ∧ Forall2 (λ upstream entry,
               ∃ players, upstream.2 = VDict players
                          ∧ player_id <$> entry.2 = players.*1)
      (clubs_of (stats_of "Alice" "2" "1")) (players_by_club match_1001).
Proof.
  apply (normalizer_keeps_upstream_order (as_read row_1001)
           (csv_cell (players_of (stats_of "Alice" "2" "1")))).
  - vm_compute. reflexivity.
  - vm_compute. reflexivity.
  - apply (bool_decide_unpack _). vm_compute. exact I.
  - vm_compute. reflexivity.
Defined.

Lemma match_1001_normalized : normalized match_1001.
Proof.
  split.
  - apply (bool_decide_unpack _). vm_compute. exact I.
  - repeat constructor.
Qed.

(** Witness for X4: the opponents of match 1001. *)
Lemma club_lookups_example :
  ∃ recent,
    (get_most_recent_match (holding [match_1001; match_1002])).1 = Some recent
    ∧ most_recent_match (get_most_recent_match (holding [match_1001; match_1002])).2
      = Some recent
    ∧ MostRecentMatch_get_players_for_club recent "555"
      = MatchData_get_players_for_club match_1001 "555".
Proof.
  apply (both_club_lookups_agree (holding [match_1001; match_1002]) match_1001
           [match_1002] "555").
  - reflexivity.
  - apply match_1001_normalized.
Defined.

(** Witness for X5: the batch A, B, C against the known ids A and B. *)
Lemma repeated_detection_example :
  check_for_new_matches
    (set_new_matches_detected true (holding [match_A; match_B; match_C]))
    (remembering [match_A; match_B])
  = Ok (true, set_new_matches_detected true (holding [match_A; match_B; match_C]))
  ∧ matches (set_new_matches_detected true (holding [match_A; match_B; match_C]))
    = matches (holding [match_A; match_B; match_C])
  ∧ most_recent_match (set_new_matches_detected true (holding [match_A; match_B; match_C]))
    = most_recent_match (holding [match_A; match_B; match_C]).
Proof.
  apply (detection_is_repeatable (holding [match_A; match_B; match_C])).
  vm_compute. reflexivity.
Defined.

(** Witness for X11: match 1001 exported and read. *)
Lemma export_then_extract_example :
  parse_stats (export_most_recent_match_to_json (holding [match_1001]) no_files)
  = match dict_lookup tracked_club (players_by_club match_1001) with
    | Some players => Ok (players ≫= player_facts)
    | None => Raise (KeyError tracked_club)
    end.
Proof.
  apply (export_then_extract (holding [match_1001]) no_files match_1001 []).
  - reflexivity.
  - apply (bool_decide_unpack _). vm_compute. exact I.
Defined.



(** Witness for X7: match 1002 merged into a history of match 1001. *)
Lemma merge_keys_example :
  ∃ rows',
    update_most_recent_matches (holding [match_1002]) (remembering [match_1001])
    = Ok (set_history (Table rows') (remembering [match_1001]))
    ∧ ∀ k, k ∈ history_key <$> rows'
           ↔ ∃ r, r ∈ (read_csv_history (to_csv (current_matches_data [match_1001]))
                        ++ current_matches_data (matches (holding [match_1002])))%list
                  ∧ k = (cell_text (h_matchId r), cell_text (h_player_id r)).
Proof.
  apply (merge_keeps_every_key (holding [match_1002]) (remembering [match_1001])).
  - discriminate.
  - reflexivity.
Defined.

Lemma friendly_history_is_text_keyed :
  Forall text_keyed (read_csv_history (to_csv (current_matches_data [friendly 1]))).
Proof.
  apply Forall_forall. intros r Hr. vm_compute in Hr.
  apply list_elem_of_singleton in Hr as ->. by eexists _, _.
Qed.

(** Witness for X8: the friendly with revised goals merged into a
    history that holds it. *)
Lemma text_ids_merge_example :
  ∃ frame,
    update_most_recent_matches (holding [friendly 2]) (remembering [friendly 1])
    = Ok (set_history (Table (to_csv frame)) (remembering [friendly 1]))
    ∧ NoDup (history_key <$> to_csv frame)
    ∧ (∀ r, r ∈ frame →
            history_key r ∈ history_key <$> current_matches_data (matches (holding [friendly 2])) →
            r ∈ drop_duplicates_last (current_matches_data (matches (holding [friendly 2]))))
    ∧ (∀ r, r ∈ drop_duplicates_last (current_matches_data (matches (holding [friendly 2]))) →
            r ∈ frame).
Proof.
  apply (merge_of_text_ids_replaces (holding [friendly 2]) (remembering [friendly 1])
           (to_csv (current_matches_data [friendly 1]))).
  - discriminate.
  - reflexivity.
  - apply friendly_history_is_text_keyed.
Defined.

(** Witness for X9: the same merge, done twice. *)
Lemma merge_twice_example :
  ∃ fs',
    update_most_recent_matches (holding [friendly 2]) (remembering [friendly 1]) = Ok fs'
    ∧ update_most_recent_matches (holding [friendly 2]) fs' = Ok fs'.
Proof.
  apply (merge_twice_when_ids_read_back (holding [friendly 2]) (remembering [friendly 1])
           (to_csv (current_matches_data [friendly 1]))).
  - discriminate.
  - reflexivity.
  - vm_compute. reflexivity.
Defined.


(** Witness for X12: the first turn on match 1001. *)
Lemma first_dispatch_example :
  ∃ st',
    cycle (Some [row_1001]) fresh_loop = Ok st'
    ∧ (sent st' = sent fresh_loop
       ∨ ∃ first rest players,
           matches (match_parser st') = first :: rest
           ∧ newest_match_json (files st') = Some (VList [export_match first])
           ∧ dict_lookup tracked_club (players_by_club first) = Some players
           ∧ sent st' = (sent fresh_loop ++ (players ≫= player_facts))%list).
Proof.
  eexists. split.
  - vm_compute. reflexivity.
  - apply (dispatch_reports_first_of_list (Some [row_1001]) fresh_loop).
    + constructor.
    + vm_compute. reflexivity.
Defined.

(** Witness for X13: match 1001 fetched when the history already
    holds it. *)
Lemma known_match_example :
  ∃ parser,
    cycle (Some [row_1001]) (loop_remembering [match_1001])
    = Ok (mkLoop parser
            (fetched_files (Some [row_1001]) (files (loop_remembering [match_1001])))
            (sent (loop_remembering [match_1001])))
    ∧ matches parser
      = (matches (match_parser (loop_remembering [match_1001]))
         ++ parsed [as_read row_1001])%list.
Proof.
  apply (known_matches_send_nothing (Some [row_1001]) (loop_remembering [match_1001])
           [as_read row_1001] (to_csv (current_matches_data [match_1001]))).
  - reflexivity.
  - reflexivity.
  - intros m Hm. vm_compute in Hm. apply list_elem_of_singleton in Hm as ->.
    apply (bool_decide_unpack _). vm_compute. exact I.
Defined.



